(** * Formatter picker commands and the SsmsMin launcher

    A shallow embedding of the two units of glue code of the repository:

    - [formatActionsMultiple.ts]: the commands "Format Document With..." and
      "Format Selection With...", which let the user choose one of the
      registered formatting providers;
    - the admin-tool extension: [activate], [launchSsmsDialog] and
      [buildSsmsMinCommandArgs], which locate SsmsMin.exe and shell out to it.

    JavaScript values are modelled by what the code observes of them:
    an optional field [f?: string] is an [option string], truthiness is the
    function [ToBoolean], string concatenation with an absent operand yields
    the text [undefined].  Calls into the host (quick pick, telemetry, process
    execution, notifications) are recorded, in program order, in the trace of
    a small state-and-exception monad. *)

From Stdlib Require Import String Ascii List Bool Arith ZArith Lia.
From Stdlib Require Import SpecFloat DecimalString.
Import ListNotations.
Local Open Scope string_scope.
Local Open Scope list_scope.

Set Implicit Arguments.

(* ================================================================= *)
(** ** JavaScript values and strings *)

Module Js.

(** The double quote character, U+0022. *)
Definition dquote : string := String "034"%char EmptyString.

(** A runtime value, as far as the code inspects one: configuration
    values read with [get] are of type [any]. *)
#[local] Unset Elimination Schemes.
Inductive Value : Type :=
| Undefined
| Null
| Boolean (b : bool)
| Number (f : spec_float)
| Str (s : string)
| Arr (items : list Value)
| Obj (fields : list (string * Value)).
#[local] Set Elimination Schemes.

(** Truthiness of a string: every string but the empty one. *)
Definition truthy (s : string) : bool :=
  match s with
  | EmptyString => false
  | String _ _ => true
  end.

(** Truthiness of an optional string field; an absent field is
    [undefined], which is falsy. *)
Definition truthy_opt (o : option string) : bool :=
  match o with
  | Some s => truthy s
  | None => false
  end.

(** The abstract operation ToBoolean of the language. *)
Definition ToBoolean (v : Value) : bool :=
  match v with
  | Undefined | Null => false
  | Boolean b => b
  | Number (S754_zero _) | Number S754_nan => false
  | Number _ => true
  | Str s => truthy s
  | Arr _ | Obj _ => true
  end.

(** [a || b]: the left operand when it is truthy, else the right one. *)
Definition or (a b : Value) : Value :=
  if ToBoolean a then a else b.

(** [o || d] for an optional string and a string default. *)
Definition or_string (o : option string) (d : string) : string :=
  match o with
  | Some (String _ _ as s) => s
  | _ => d
  end.

(** The text an optional string contributes to a concatenation
    ['...' + x]: an absent operand is printed as [undefined]. *)
Definition concat_operand (o : option string) : string :=
  match o with
  | Some s => s
  | None => "undefined"
  end.

(** [String(n)] for an integral number. *)
Definition String_of_Z (z : Z) : string :=
  NilZero.string_of_int (Z.to_int z).

(** [s.startsWith(p)]. *)
Fixpoint startsWith (p s : string) : bool :=
  match p, s with
  | EmptyString, _ => true
  | String _ _, EmptyString => false
  | String a p', String b s' => Ascii.eqb a b && startsWith p' s'
  end.

(** [s.includes(p)]: [p] occurs in [s] at some position. *)
Fixpoint includes (p s : string) : bool :=
  startsWith p s ||
  match s with
  | EmptyString => false
  | String _ s' => includes p s'
  end.

(** The last character of [s] is [c]. *)
Fixpoint endsWithChar (c : ascii) (s : string) : bool :=
  match s with
  | EmptyString => false
  | String x EmptyString => Ascii.eqb c x
  | String _ s' => endsWithChar c s'
  end.

End Js.

(* ================================================================= *)
(** ** A monad for host calls

    A computation reads and writes a state of type [St] (the module-level
    variables of the unit), appends the host calls it makes to a trace of
    events of type [Ev], and completes normally or by throwing. *)

Module Eff.

Inductive Completion (A : Type) : Type :=
| Normal (a : A)
| Throw (error : string).
Arguments Throw {A} error.

Record Run (St Ev A : Type) : Type := MkRun {
  trace : list Ev;
  completion : Completion A;
  final : St
}.

Definition M (St Ev A : Type) : Type := St -> Run St Ev A.

Section Ops.
Context {St Ev : Type}.

Definition ret {A} (a : A) : M St Ev A :=
  fun s => MkRun [] (Normal a) s.

Definition bind {A B} (m : M St Ev A) (k : A -> M St Ev B) : M St Ev B :=
  fun s =>
    let r := m s in
    match completion r with
    | Normal a =>
        let r' := k a (final r) in
        MkRun (trace r ++ trace r') (completion r') (final r')
    | Throw e => MkRun (trace r) (Throw e) (final r)
    end.

Definition call (e : Ev) : M St Ev unit :=
  fun s => MkRun [e] (Normal tt) s.

Definition throw {A} (e : string) : M St Ev A :=
  fun s => MkRun [] (Throw e) s.

Definition get : M St Ev St :=
  fun s => MkRun [] (Normal s) s.

Definition put (s : St) : M St Ev unit :=
  fun _ => MkRun [] (Normal tt) s.

(** The outcome of an awaited host operation, given by the host. *)
Definition await {A} (outcome : Completion A) : M St Ev A :=
  fun s => MkRun [] outcome s.
End Ops.

Module Notations.
Notation "x <- m ;; k" := (bind m (fun x => k))
  (at level 61, m at next level, right associativity).
Notation "m ;; k" := (bind m (fun _ => k))
  (at level 61, right associativity).
End Notations.

End Eff.

(* ================================================================= *)
(** ** The SsmsMin launcher *)

Module Launcher.
Import Js Eff Eff.Notations.

(** Params to pass to SsmsMin.exe, only an action and server are
    required - the rest are optional based on the action used. *)
Record LaunchSsmsDialogParams : Type := {
  action : string;
  server : string;
  database : option string;
  user : option string;
  password : option string;
  useAad : option bool;
  urn : option string
}.

(** [params.useAad === true] *)
Definition useAad_is_true (params : LaunchSsmsDialogParams) : bool :=
  match useAad params with
  | Some true => true
  | _ => false
  end.

(** Builds the command arguments to pass to SsmsMin.exe.

    The source is one template literal over six lines.  A backslash at
    the end of a line continues the line, so the line break itself is
    not part of the text; the blank before the backslash (on all lines
    but the first) and the four blanks that indent the next line are. *)
Definition buildSsmsMinCommandArgs (params : LaunchSsmsDialogParams) : string :=
  (if truthy (action params)
   then "-a " ++ dquote ++ action params ++ dquote else EmptyString)
  ++ "    " ++
  (if truthy (server params)
   then "-S " ++ dquote ++ server params ++ dquote else EmptyString)
  ++ " " ++ "    " ++
  (if truthy_opt (database params)
   then "-D " ++ dquote ++ concat_operand (database params) ++ dquote
   else EmptyString)
  ++ " " ++ "    " ++
  (if negb (useAad_is_true params)
   then "-U " ++ dquote ++ concat_operand (user params) ++ dquote
   else EmptyString)
  ++ " " ++ "    " ++
  (if useAad_is_true params then "-G" else EmptyString)
  ++ " " ++ "    " ++
  (if truthy_opt (urn params)
   then "-u " ++ dquote ++ concat_operand (urn params) ++ dquote
   else EmptyString).

(** The part of [sqlops.IConnectionProfile] that the launcher reads.
    The declaration is the host's; a connection attribute that the
    profile does not carry is absent. *)
Module sqlops.
Record IConnectionProfile : Type := {
  serverName : string;
  databaseName : option string;
  userName : option string;
  password : option string;
  authenticationType : option string
}.
End sqlops.

(** The argument of the command, of type [any]: an object that may
    carry a [connectionProfile]. *)
Record ConnectionContext : Type := {
  connectionProfile : option sqlops.IConnectionProfile
}.

(** The download configuration of [service-downloader].  The fields
    this unit does not touch are kept as they come from [config.json]. *)
Record IConfig : Type := {
  installDirectory : string;
  proxy : Value;
  strictSSL : Value;
  otherFields : list (string * Value)
}.

Inductive Property : Type :=
| PString (s : string)
| PNumber (n : Z).

(** The calls the launcher makes into its host, in program order. *)
#[local] Unset Elimination Schemes.
Inductive Effect : Type :=
| RegisterCommand (command : string)
| ShowErrorMessage (message : string)
| SendTelemetryEvent (eventName : string) (properties : list (string * Property))
| NewServerProvider (config : IConfig)
| GetOrDownloadServer
| GetServerPath
| Exec (command options : string)
       (callback : Z -> string -> string -> list Effect)
| StdinEnd (data : string).
#[local] Set Elimination Schemes.

(** What the caller of [activate] gets back. *)
Inductive Activation : Type :=
| ReturnsUndefined
| PromiseResolved
| PromisePending.

(** What [activate] reads from its surroundings: the process, the
    extension context, [config.json], the host configuration, the clock
    and the way the two promises of the downloader settle. *)
Record Host : Type := {
  platform : string;
  extensionPath : string;
  baseConfig : IConfig;
  httpConfiguration : string -> Value;
  installationStart : Z;
  installationComplete : Z;
  getOrDownloadServer : Completion unit;
  getServerPath : Completion (option string)
}.

(** The action identifier of the server properties dialog. *)
Definition serverPropertiesAction : string :=
  "sqla:Properties@Microsoft.SqlServer.Management.Smo.Server".

Section WithLibraries.
(** [nls.loadMessageBundle()] and [path.join], as the libraries
    provide them. *)
Variable localize : string -> string -> string.
Variable path_join : string -> string -> string.

(** The state of the unit: [let exePath:string;], unset at first. *)
Definition State : Type := option string.
Definition initialState : State := None.

(** Lines 192 to 195 of [activate]. *)
Definition downloadConfig (h : Host) : IConfig :=
  let config := baseConfig h in
  {| installDirectory := path_join (extensionPath h) (installDirectory config);
     proxy := httpConfiguration h "proxy";
     strictSSL := or (httpConfiguration h "proxyStrictSSL") (Boolean true);
     otherFields := otherFields config |}.

Definition activate (h : Host) : M State Effect Activation :=
  call (RegisterCommand "adminToolExtWin.launchSsmsServerPropertiesDialog") ;;
  if platform h =? "win32" then
    call (NewServerProvider (downloadConfig h)) ;;
    call GetOrDownloadServer ;;
    match getOrDownloadServer h with
    | Normal _ =>
        call (SendTelemetryEvent "startup/ExtensionStarted"
                [("installationTime",
                   PString (String_of_Z (installationComplete h - installationStart h)));
                 ("beginningTimestamp",
                   PString (String_of_Z (installationStart h)))]) ;;
        call GetServerPath ;;
        match getServerPath h with
        | Normal path =>
            (if truthy_opt path then put path else ret tt) ;;
            ret PromiseResolved
        | Throw _ => ret PromisePending
        end
    | Throw _ =>
        call (SendTelemetryEvent "startup/ExtensionInitializationFailed" []) ;;
        ret PromiseResolved
    end
  else
    call (ShowErrorMessage
            (localize "adminToolExtWin.onlySupportedOnWindows"
               "The Admin Tool Extension is only supported on Windows platforms.")) ;;
    ret ReturnsUndefined.

(** The object literal of lines 251 to 258. *)
Definition launchParams (connectionProfile : sqlops.IConnectionProfile)
    (urn : option string) : LaunchSsmsDialogParams :=
  {| action := "sqla:Properties@Microsoft.SqlServer.Management.Smo.Server";
     server := sqlops.serverName connectionProfile;
     database := sqlops.databaseName connectionProfile;
     password := sqlops.password connectionProfile;
     user := sqlops.userName connectionProfile;
     useAad :=
       Some (match sqlops.authenticationType connectionProfile with
             | Some t => t =? "AzureMFA"
             | None => false
             end);
     urn := urn |}.

(** Launches SsmsMin with parameters from the specified connection. *)
Definition launchSsmsDialog (action : string)
    (connectionProfile : sqlops.IConnectionProfile) (urn : option string)
  : M State Effect unit :=
  exePath <- get ;;
  if negb (truthy_opt exePath) then
    call (ShowErrorMessage
            (localize "adminToolExtWin.noExeError" "Unable to find SsmsMin.exe."))
  else
    call (SendTelemetryEvent "LaunchSsmsDialog" [("action", PString action)]) ;;
    let params := launchParams connectionProfile urn in
    let args := buildSsmsMinCommandArgs params in
    call (Exec (dquote ++ concat_operand exePath ++ dquote ++ " " ++ args)
            EmptyString
            (fun code stdout stderr =>
               [SendTelemetryEvent "LaunchSsmsDialogResult"
                  [("action", PString (Launcher.action params));
                   ("returnCode", PNumber code);
                   ("error", PString stderr)]])) ;;
    if negb (useAad_is_true params) then
      call (StdinEnd (if truthy_opt (Launcher.password params)
                      then concat_operand (Launcher.password params)
                      else EmptyString))
    else ret tt.

(** Handler for command to launch SSMS Server Properties dialog.
    The argument is optional and read without a check: reading
    [connectionProfile] of [undefined] throws. *)
Definition handleLaunchSsmsServerPropertiesDialogCommand
    (connectionContext : option ConnectionContext) : M State Effect unit :=
  match connectionContext with
  | None => throw "TypeError: Cannot read property 'connectionProfile' of undefined"
  | Some ctx =>
      match connectionProfile ctx with
      | Some profile =>
          launchSsmsDialog
            "sqla:Properties@Microsoft.SqlServer.Management.Smo.Server"
            profile
            (Some ("Server[@Name='" ++ sqlops.serverName profile ++ "']")%string)
      | None => ret tt
      end
  end.

End WithLibraries.

(** *** Vocabulary of the statements *)

Definition optional (o : option string) : list string :=
  match o with
  | Some s => [s]
  | None => []
  end.

(** The field values that [buildSsmsMinCommandArgs] copies into its
    result. *)
Definition interpolated (params : LaunchSsmsDialogParams) : list string :=
  [action params; server params]
  ++ optional (database params)
  ++ (if useAad_is_true params then [] else [concat_operand (user params)])
  ++ optional (urn params).

(** A value in which neither [-G] nor [-U] occurs. *)
Definition flagFree (v : string) : bool :=
  negb (includes "-G" v) && negb (includes "-U" v).

(** What the launcher promises about the authentication flags. *)
Definition auth_flags_spec (params : LaunchSsmsDialogParams) : Prop :=
  let args := buildSsmsMinCommandArgs params in
  (includes "-G" args = true <-> useAad params = Some true)
  /\ (useAad params = Some true -> includes "-U" args = false)
  /\ (forall u, useAad params <> Some true -> user params = Some u ->
        includes ("-U " ++ dquote ++ u ++ dquote) args = true
        /\ includes "-G" args = false)
  /\ includes "-U" args && includes "-G" args = false
  /\ (truthy (action params) = true ->
        includes ("-a " ++ dquote ++ action params ++ dquote) args = true)
  /\ (truthy (server params) = true ->
        includes ("-S " ++ dquote ++ server params ++ dquote) args = true).

(** The data written to the input stream of the spawned process. *)
Fixpoint stdinWrites (t : list Effect) : list string :=
  match t with
  | [] => []
  | StdinEnd data :: t' => data :: stdinWrites t'
  | _ :: t' => stdinWrites t'
  end.

(** The command lines handed to [shelljs.exec]. *)
Fixpoint spawned (t : list Effect) : list string :=
  match t with
  | [] => []
  | Exec command _ _ :: t' => command :: spawned t'
  | _ :: t' => spawned t'
  end.

(** The names of the telemetry events sent. *)
Fixpoint telemetryNames (t : list Effect) : list string :=
  match t with
  | [] => []
  | SendTelemetryEvent name _ :: t' => name :: telemetryNames t'
  | _ :: t' => telemetryNames t'
  end.

(** The notifications shown to the user. *)
Fixpoint errorMessages (t : list Effect) : list string :=
  match t with
  | [] => []
  | ShowErrorMessage message :: t' => message :: errorMessages t'
  | _ :: t' => errorMessages t'
  end.

End Launcher.

(* ================================================================= *)
(** ** The formatter picker commands *)

Module Picker.
Import Js Eff Eff.Notations.

Record ExtensionIdentifier : Type := {
  value : string
}.

Record Range : Type := {
  startLineNumber : nat;
  startColumn : nat;
  endLineNumber : nat;
  endColumn : nat
}.

(** Modelled from the spec: [Range.isEmpty] of the editor core, which
    is not part of this unit.  A selection is empty when it is collapsed,
    that is when it starts where it ends. *)
Definition isEmpty (range : Range) : bool :=
  (startLineNumber range =? endLineNumber range)%nat
  && (startColumn range =? endColumn range)%nat.

(** A text model, as far as the commands read it: its lines, the first
    of which has number 1. *)
Record ITextModel : Type := {
  lines : list string
}.

(** Modelled from the spec: [ITextModel.getLineMaxColumn] of the editor
    core, which is not part of this unit.  For a line of length [n] the
    greatest column is [n + 1]; a line number outside the model is
    refused. *)
Definition getLineMaxColumn (model : ITextModel) (lineNumber : nat)
  : Completion nat :=
  match lineNumber with
  | O => Throw "Illegal value for lineNumber"
  | S k =>
      match nth_error (lines model) k with
      | Some line => Normal (String.length line + 1)
      | None => Throw "Illegal value for lineNumber"
      end
  end.

(** [editor.hasModel()] holds exactly when [editor.getModel()] is set. *)
Record ICodeEditor : Type := {
  getModel : option ITextModel;
  getSelection : Range
}.

Record IQuickInputButton : Type := {
  tooltip : string;
  iconClass : string
}.

Record IIndexedPick : Type := {
  index : nat;
  label : string;
  buttons : list IQuickInputButton
}.

(** The payload of the [formatterpick] telemetry event. *)
Record FormatterPick : Type := {
  mode : string;
  extensions : list string;
  pick : string
}.

(** What the commands read of a formatting provider. *)
Class FormattingEditProvider (T : Type) : Type := {
  extensionId : T -> option ExtensionIdentifier;
  displayName : T -> option string
}.

(** [xs.map((x, i) => f(x, i))] *)
Fixpoint map_from {A B} (f : A -> nat -> B) (i : nat) (xs : list A) : list B :=
  match xs with
  | [] => []
  | x :: xs' => f x i :: map_from f (S i) xs'
  end.

Definition map_indexed {A B} (f : A -> nat -> B) (xs : list A) : list B :=
  map_from f 0 xs.

(** The two commands registered by the unit. *)
Inductive Command : Type :=
| FormatDocumentMultiple
| FormatSelectionMultiple.

Definition commandId (c : Command) : string :=
  match c with
  | FormatDocumentMultiple => "editor.action.formatDocument.multiple"
  | FormatSelectionMultiple => "editor.action.formatSelection.multiple"
  end.

Section WithProviders.
(** The providers of whole-document and of range formatting. *)
Context {D R : Type}.
Context `{FormattingEditProvider D} `{FormattingEditProvider R}.

(** [nls.localize] and [ExtensionIdentifier.toKey], as the platform
    provides them. *)
Variable localize : string -> string -> string.
Variable toKey : ExtensionIdentifier -> string.

(** The calls the commands make into their host, in program order.
    A quick pick is given the handler of its item buttons. *)
#[local] Unset Elimination Schemes.
Inductive Effect : Type :=
| QuickPick (picks : list IIndexedPick) (placeHolder : string)
            (onDidTriggerItemButton : IIndexedPick -> Completion (list Effect))
| ShowExtensionQuery (query : string)
| FormatDocumentWithProvider (provider : option D)
| FormatDocumentRangeWithProvider (provider : option R) (range : Range)
| PublicLog (eventName : string) (data : FormatterPick).
#[local] Set Elimination Schemes.

(** What the host answers: the ordered providers of a model, the
    entry the user chooses (none when the picker is dismissed) and
    the way an awaited formatting call settles. *)
Record Services : Type := {
  getRealAndSyntheticDocumentFormattersOrdered : ITextModel -> list D;
  DocumentRangeFormattingEditProviderRegistry_ordered : ITextModel -> list R;
  quickPickService_pick : list IIndexedPick -> option IIndexedPick;
  formatDocumentWithProvider : option D -> Completion unit;
  formatDocumentRangeWithProvider : option R -> Range -> Completion unit
}.

Definition openExtensionAction : IQuickInputButton :=
  {| tooltip := localize "show.ext" "Show extension...";
     iconClass := "format-show-extension" |}.

Definition extKey {T} `{FormattingEditProvider T} (obj : T) : string :=
  match extensionId obj with
  | Some id => toKey id
  | None => "unknown"
  end.

Definition logFormatterTelemetry {T} `{FormattingEditProvider T}
    (mode : string) (options : list T) (pick : option T)
  : M unit Effect unit :=
  call (PublicLog "formatterpick"
          {| mode := mode;
             extensions := map extKey options;
             pick := match pick with
                     | Some p => extKey p
                     | None => "none"
                     end |}).

(** The entries offered for a list of providers. *)
Definition picksOf {T} `{FormattingEditProvider T} (provider : list T)
  : list IIndexedPick :=
  map_indexed
    (fun provider index =>
       {| index := index;
          label := or_string (displayName provider) EmptyString;
          buttons := [openExtensionAction] |})
    provider.

(** The handler of the item button: reading [extensionId] of a
    missing provider, or [value] of a missing identifier, throws. *)
Definition onDidTriggerItemButton {T} `{FormattingEditProvider T}
    (provider : list T) (item : IIndexedPick) : Completion (list Effect) :=
  match nth_error provider (index item) with
  | None => Throw "TypeError: Cannot destructure property 'extensionId'"
  | Some p =>
      match extensionId p with
      | None => Throw "TypeError: Cannot read property 'value' of undefined"
      | Some id => Normal [ShowExtensionQuery ("@id:" ++ value id)]
      end
  end.

Definition FormatDocumentMultipleAction_run (services : Services)
    (editor : ICodeEditor) : M unit Effect unit :=
  match getModel editor with
  | None => ret tt
  | Some model =>
      let provider := getRealAndSyntheticDocumentFormattersOrdered services model in
      let picks := picksOf provider in
      call (QuickPick picks (localize "format.placeHolder" "Select a formatter")
              (onDidTriggerItemButton provider)) ;;
      let pick := quickPickService_pick services picks in
      match pick with
      | Some item =>
          call (FormatDocumentWithProvider (nth_error provider (index item))) ;;
          await (formatDocumentWithProvider services
                   (nth_error provider (index item)))
      | None => ret tt
      end ;;
      logFormatterTelemetry "document" provider
        match pick with
        | Some item => nth_error provider (index item)
        | None => None
        end
  end.

(** Lines 126 to 129: an empty selection is widened to its line. *)
Definition selectionRange (model : ITextModel) (selection : Range)
  : M unit Effect Range :=
  if isEmpty selection then
    maxColumn <- await (getLineMaxColumn model (startLineNumber selection)) ;;
    ret {| startLineNumber := startLineNumber selection;
           startColumn := 1;
           endLineNumber := startLineNumber selection;
           endColumn := maxColumn |}
  else ret selection.

Definition FormatSelectionMultipleAction_run (services : Services)
    (editor : ICodeEditor) : M unit Effect unit :=
  match getModel editor with
  | None => ret tt
  | Some model =>
      range <- selectionRange model (getSelection editor) ;;
      let provider := DocumentRangeFormattingEditProviderRegistry_ordered services model in
      let picks := picksOf provider in
      call (QuickPick picks (localize "format.placeHolder" "Select a formatter")
              (onDidTriggerItemButton provider)) ;;
      let pick := quickPickService_pick services picks in
      match pick with
      | Some item =>
          call (FormatDocumentRangeWithProvider
                  (nth_error provider (index item)) range) ;;
          await (formatDocumentRangeWithProvider services
                   (nth_error provider (index item)) range)
      | None => ret tt
      end ;;
      logFormatterTelemetry "range" provider
        match pick with
        | Some item => nth_error provider (index item)
        | None => None
        end
  end.

(** Running a registered command. *)
Definition run (c : Command) (services : Services) (editor : ICodeEditor)
  : M unit Effect unit :=
  match c with
  | FormatDocumentMultiple => FormatDocumentMultipleAction_run services editor
  | FormatSelectionMultiple => FormatSelectionMultipleAction_run services editor
  end.

(** *** Vocabulary of the statements *)

(** The mode a command reports in its telemetry. *)
Definition commandMode (c : Command) : string :=
  match c with
  | FormatDocumentMultiple => "document"
  | FormatSelectionMultiple => "range"
  end.

(** The entry lists shown in quick picks. *)
Fixpoint quickPicks (t : list Effect) : list (list IIndexedPick) :=
  match t with
  | [] => []
  | QuickPick picks _ _ :: t' => picks :: quickPicks t'
  | _ :: t' => quickPicks t'
  end.

(** The providers of the whole-document formatting calls. *)
Fixpoint documentFormats (t : list Effect) : list (option D) :=
  match t with
  | [] => []
  | FormatDocumentWithProvider p :: t' => p :: documentFormats t'
  | _ :: t' => documentFormats t'
  end.

(** The providers and ranges of the range formatting calls. *)
Fixpoint rangeFormats (t : list Effect) : list (option R * Range) :=
  match t with
  | [] => []
  | FormatDocumentRangeWithProvider p r :: t' => (p, r) :: rangeFormats t'
  | _ :: t' => rangeFormats t'
  end.

(** The telemetry events logged. *)
Fixpoint publicLogs (t : list Effect) : list (string * FormatterPick) :=
  match t with
  | [] => []
  | PublicLog name data :: t' => (name, data) :: publicLogs t'
  | _ :: t' => publicLogs t'
  end.

(** The entry built for provider [p] at position [i]. *)
Definition entryOf {T} `{FormattingEditProvider T} (i : nat) (p : T)
  : IIndexedPick :=
  {| index := i;
     label := match displayName p with
              | Some name => name
              | None => EmptyString
              end;
     buttons := [openExtensionAction] |}.

End WithProviders.

End Picker.

(* ================================================================= *)
(** ** Sample inputs *)

Module Samples.
Import Js Eff Launcher Picker.

Definition params0 : LaunchSsmsDialogParams :=
  {| action := "X"; server := "S"; database := None; user := None;
     password := None; useAad := None; urn := None |}.

Definition paramsAad : LaunchSsmsDialogParams :=
  {| action := "X"; server := "S"; database := None; user := None;
     password := None; useAad := Some true; urn := None |}.

Definition paramsUser : LaunchSsmsDialogParams :=
  {| action := "X"; server := "S"; database := None; user := Some "U";
     password := None; useAad := Some false; urn := None |}.

(** A server name that closes its quotes and goes on with a flag. *)
Definition paramsQuoted : LaunchSsmsDialogParams :=
  {| action := "X";
     server := "S" ++ dquote ++ " -U " ++ dquote ++ "sa";
     database := None; user := None; password := None;
     useAad := Some true; urn := None |}.

Definition paramsHyphen : LaunchSsmsDialogParams :=
  {| action := "X"; server := "S"; database := Some "Test-Users";
     user := None; password := None; useAad := Some true; urn := None |}.

Definition profile0 : sqlops.IConnectionProfile :=
  {| sqlops.serverName := "S";
     sqlops.databaseName := Some "master";
     sqlops.userName := Some "sa";
     sqlops.password := Some "secret";
     sqlops.authenticationType := Some "SqlLogin" |}.

Definition english (key message : string) : string := message.

Definition join_backslash (a b : string) : string :=
  (a ++ "\" ++ b)%string.

Definition host0 : Host :=
  {| platform := "win32";
     extensionPath := "C:\ext";
     baseConfig := {| installDirectory := "ssmsmin";
                      proxy := Undefined;
                      strictSSL := Undefined;
                      otherFields := [("version", Str "15.0")] |};
     httpConfiguration := fun key =>
       if (key =? "proxyStrictSSL")%string then Boolean false else Undefined;
     installationStart := 1000;
     installationComplete := 1250;
     getOrDownloadServer := Throw "ENOTFOUND";
     getServerPath := Normal None |}.

Record SampleProvider : Type := {
  sampleExtension : option ExtensionIdentifier;
  sampleName : option string
}.

#[export] Instance SampleProvider_provider : FormattingEditProvider SampleProvider :=
  {| extensionId := sampleExtension; displayName := sampleName |}.

Definition prettier : SampleProvider :=
  {| sampleExtension := Some {| value := "esbenp.prettier-vscode" |};
     sampleName := Some "Prettier" |}.

Definition builtin : SampleProvider :=
  {| sampleExtension := None; sampleName := None |}.

(** A host with two providers of each kind, whose user answers a
    quick pick with the entry at position [choice], if any. *)
Definition sampleServices (choice : option nat)
  : @Services SampleProvider SampleProvider :=
  {| getRealAndSyntheticDocumentFormattersOrdered := fun _ => [prettier; builtin];
     DocumentRangeFormattingEditProviderRegistry_ordered := fun _ => [builtin; prettier];
     quickPickService_pick := fun picks =>
       match choice with
       | Some i => nth_error picks i
       | None => None
       end;
     formatDocumentWithProvider := fun _ => Normal tt;
     formatDocumentRangeWithProvider := fun _ _ => Normal tt |}.

Definition sampleModel : ITextModel :=
  {| lines := ["let x = 1;"; "  return x"] |}.

(** An editor whose cursor stands at line 2, column 4. *)
Definition sampleEditor : ICodeEditor :=
  {| getModel := Some sampleModel;
     getSelection := {| startLineNumber := 2; startColumn := 4;
                        endLineNumber := 2; endColumn := 4 |} |}.

Definition samplePicks : list IIndexedPick :=
  picksOf english [builtin; prettier].

Definition sampleKey (id : ExtensionIdentifier) : string := value id.

End Samples.

(* ================================================================= *)
(** ** Further sample inputs *)

Module MoreSamples.
Import Js Eff Launcher Picker Samples.

(** A Windows host whose download succeeds and whose downloader knows
    where the executable is. *)
Definition hostReady : Host :=
  {| platform := "win32";
     extensionPath := "C:\ext";
     baseConfig := baseConfig host0;
     httpConfiguration := fun _ => Undefined;
     installationStart := 1000;
     installationComplete := 1250;
     getOrDownloadServer := Normal tt;
     getServerPath := Normal (Some "C:\ext\ssmsmin\SsmsMin.exe") |}.

(** The same host when the downloader cannot tell the path. *)
Definition hostPathRejected : Host :=
  {| platform := "win32";
     extensionPath := "C:\ext";
     baseConfig := baseConfig host0;
     httpConfiguration := fun _ => Undefined;
     installationStart := 1000;
     installationComplete := 1250;
     getOrDownloadServer := Normal tt;
     getServerPath := Throw "ENOENT" |}.

Definition hostLinux : Host :=
  {| platform := "linux";
     extensionPath := "/opt/ext";
     baseConfig := baseConfig host0;
     httpConfiguration := fun _ => Undefined;
     installationStart := 1000;
     installationComplete := 1250;
     getOrDownloadServer := Normal tt;
     getServerPath := Normal (Some "/opt/ext/ssmsmin") |}.

Definition context0 : ConnectionContext :=
  {| connectionProfile := Some profile0 |}.

Definition profileAad : sqlops.IConnectionProfile :=
  {| sqlops.serverName := "S";
     sqlops.databaseName := None;
     sqlops.userName := None;
     sqlops.password := None;
     sqlops.authenticationType := Some "AzureMFA" |}.

Definition paramsFull : LaunchSsmsDialogParams :=
  {| action := "X"; server := "S"; database := Some "master";
     user := Some "sa"; password := Some "secret";
     useAad := Some false; urn := Some "Server" |}.

(** A host like [sampleServices] whose formatting calls fail. *)
Definition failingServices (choice : option nat)
  : @Services SampleProvider SampleProvider :=
  {| getRealAndSyntheticDocumentFormattersOrdered := fun _ => [prettier; builtin];
     DocumentRangeFormattingEditProviderRegistry_ordered := fun _ => [builtin; prettier];
     quickPickService_pick := fun picks =>
       match choice with
       | Some i => nth_error picks i
       | None => None
       end;
     formatDocumentWithProvider := fun _ => Throw "formatter crashed";
     formatDocumentRangeWithProvider := fun _ _ => Throw "formatter crashed" |}.

Definition editorWithoutModel : ICodeEditor :=
  {| getModel := None;
     getSelection := {| startLineNumber := 1; startColumn := 1;
                        endLineNumber := 1; endColumn := 1 |} |}.

End MoreSamples.

(* ================================================================= *)
(** ** Occurrences of a text in a concatenation *)

Module StringFacts.
Import Js.

Lemma startsWith_app (p r : string) : startsWith p (p ++ r) = true.
Proof.
  induction p as [|x p IH]; simpl; [reflexivity |].
  now rewrite Ascii.eqb_refl, IH.
Qed.

Lemma startsWith_weaken (p a b : string) :
  startsWith p a = true -> startsWith p (a ++ b) = true.
Proof.
  revert a; induction p as [|x p IH]; intros [|y a]; simpl; try easy.
  intros E. apply andb_true_iff in E as [-> E]. simpl. now apply IH.
Qed.

Lemma includes_startsWith (p s : string) :
  startsWith p s = true -> includes p s = true.
Proof. intros E. destruct s; simpl; rewrite E; reflexivity. Qed.

Lemma includes_app_r (p a b : string) :
  includes p b = true -> includes p (a ++ b) = true.
Proof.
  intros E. induction a as [|x a IH]; simpl; [exact E |].
  fold (append a b). rewrite IH. apply orb_true_r.
Qed.

Lemma includes_app_l (p a b : string) :
  includes p a = true -> includes p (a ++ b) = true.
Proof.
  induction a as [|x a IH]; simpl.
  - rewrite orb_false_r. intros E. destruct p; [|discriminate].
    destruct b; reflexivity.
  - intros E. apply orb_true_iff in E as [E | E].
    + apply (startsWith_weaken _ (String x a) b) in E. simpl in E.
      rewrite E. reflexivity.
    + rewrite (IH E). apply orb_true_r.
Qed.

(** An occurrence of a text of two characters in [a ++ b] lies in
    [a], lies in [b], or straddles the seam. *)
Lemma includes2_app (c1 c2 : ascii) (a b : string) :
  includes (String c1 (String c2 EmptyString)) (a ++ b) =
  includes (String c1 (String c2 EmptyString)) a
  || (endsWithChar c1 a && startsWith (String c2 EmptyString) b)
  || includes (String c1 (String c2 EmptyString)) b.
Proof.
  induction a as [|x a IH].
  - simpl. destruct b; reflexivity.
  - change (String x a ++ b)%string with (String x (a ++ b)).
    cbn [includes]. rewrite IH. clear IH.
    cbn [startsWith].
    destruct a as [|y a].
    + cbn. destruct (Ascii.eqb c1 x); destruct b as [|z b]; cbn;
        rewrite ?andb_true_r, ?orb_false_r; reflexivity.
    + change (endsWithChar c1 (String x (String y a)))
        with (endsWithChar c1 (String y a)).
      change (String y a ++ b)%string with (String y (a ++ b)).
      destruct (Ascii.eqb c1 x), (Ascii.eqb c2 y); cbn [andb orb];
        try reflexivity.
      all: destruct (a ++ b)%string, a; cbn [andb orb]; try reflexivity.
Qed.

End StringFacts.

(* ================================================================= *)
(** ** Properties of the launcher *)

Module LauncherProps.
Import Js Eff Launcher StringFacts Samples.

Ltac scan :=
  repeat (cbn [includes startsWith append Ascii.eqb Bool.eqb andb orb
               endsWithChar dquote];
          rewrite ?includes2_app, ?andb_false_r, ?orb_false_r).

Ltac split_clean :=
  repeat match goal with
         | E : andb _ _ = true |- _ =>
             apply andb_true_iff in E; destruct E
         | E : negb _ = true |- _ => apply negb_true_iff in E
         end.

Ltac use_clean :=
  repeat match goal with
         | E : includes _ _ = false |- _ => rewrite ?E; clear E
         end;
  cbn [orb andb negb]; rewrite ?orb_true_r; try reflexivity.

Ltac by_cases params :=
  let H := fresh "H" in
  destruct params as [a s d u pw aad n];
  unfold interpolated, buildSsmsMinCommandArgs, useAad_is_true;
  cbn [action server database user password useAad urn];
  intros H;
  destruct d as [d|], n as [n|], aad as [[|]|], u as [u|];
  cbn [optional app forallb concat_operand truthy_opt negb] in H |- *;
  unfold flagFree in H; split_clean;
  destruct (truthy a), (truthy s);
  try destruct (truthy d); try destruct (truthy n);
  scan; use_clean.

Lemma includes_G (params : LaunchSsmsDialogParams) :
  forallb flagFree (interpolated params) = true ->
  includes "-G" (buildSsmsMinCommandArgs params) = useAad_is_true params.
Proof. by_cases params. Qed.

Lemma includes_U (params : LaunchSsmsDialogParams) :
  forallb flagFree (interpolated params) = true ->
  includes "-U" (buildSsmsMinCommandArgs params) = negb (useAad_is_true params).
Proof. by_cases params. Qed.

Lemma useAad_is_true_iff (params : LaunchSsmsDialogParams) :
  useAad_is_true params = true <-> useAad params = Some true.
Proof.
  unfold useAad_is_true. destruct (useAad params) as [[|]|]; split; congruence.
Qed.

(** C1, as amended.  When none of the field values copied into the
    result contains [-G] or [-U]: the result contains [-G] exactly when
    [useAad] is true; it contains no [-U] when [useAad] is true; when
    [useAad] is not true and a user is given it contains the user's
    [-U] flag and no [-G]; it never contains both; and it contains the
    [-a] and [-S] flags of a non-empty action and server. *)
Theorem buildSsmsMinCommandArgs_auth_flags (params : LaunchSsmsDialogParams) :
  forallb flagFree (interpolated params) = true ->
  auth_flags_spec params.
Proof.
  intros H. unfold auth_flags_spec. cbv zeta.
  rewrite (includes_G params H), (includes_U params H).
  pose proof (useAad_is_true_iff params) as A.
  repeat split.
  - apply A.
  - apply A.
  - intros E. apply A in E. now rewrite E.
  - unfold buildSsmsMinCommandArgs.
    assert (useAad_is_true params = false) as ->
      by (destruct (useAad_is_true params); [exfalso; apply H0, A |]; reflexivity).
    rewrite H1. cbn [negb concat_operand].
    do 8 apply includes_app_r.
    apply includes_startsWith, startsWith_app.
  - destruct (useAad_is_true params); [exfalso; apply H0, A |]; reflexivity.
  - destruct (useAad_is_true params); reflexivity.
  - intros E. unfold buildSsmsMinCommandArgs. rewrite E.
    apply includes_startsWith, startsWith_app.
  - intros E. unfold buildSsmsMinCommandArgs. rewrite E.
    do 2 apply includes_app_r.
    apply includes_startsWith, startsWith_app.
Qed.

Lemma buildSsmsMinCommandArgs_auth_flags_witness :
  forallb flagFree (interpolated paramsAad) = true
  /\ auth_flags_spec paramsAad.
Proof.
  split; [reflexivity |].
  apply (buildSsmsMinCommandArgs_auth_flags paramsAad). reflexivity.
Defined.

(** C1, as stated, fails: with [useAad] true and a server name that
    holds a double quote followed by a [-U] flag, the result contains
    both [-G] and a [-U] flag. *)
Lemma buildSsmsMinCommandArgs_auth_flags_counterexample :
  useAad paramsQuoted = Some true
  /\ buildSsmsMinCommandArgs paramsQuoted =
       ("-a " ++ dquote ++ "X" ++ dquote ++ "    "
        ++ "-S " ++ dquote ++ "S" ++ dquote
        ++ " -U " ++ dquote ++ "sa" ++ dquote
        ++ "               " ++ "-G" ++ "     ")%string
  /\ includes "-G" (buildSsmsMinCommandArgs paramsQuoted) = true
  /\ includes "-U" (buildSsmsMinCommandArgs paramsQuoted) = true.
Proof. repeat split. Qed.

(** The same happens, harmlessly, with a hyphen inside a quoted value:
    a database named [Test-Users]. *)
Example args_with_hyphen :
  useAad paramsHyphen = Some true
  /\ includes "-G" (buildSsmsMinCommandArgs paramsHyphen) = true
  /\ includes "-U" (buildSsmsMinCommandArgs paramsHyphen) = true.
Proof. repeat split. Qed.

(** The two sample calls of the specification. *)
Example args_with_aad :
  let args := buildSsmsMinCommandArgs paramsAad in
  includes ("-a " ++ dquote ++ "X" ++ dquote) args = true
  /\ includes ("-S " ++ dquote ++ "S" ++ dquote) args = true
  /\ includes "-G" args = true
  /\ includes "-U" args = false.
Proof. repeat split. Qed.

Example args_with_user :
  let args := buildSsmsMinCommandArgs paramsUser in
  includes ("-U " ++ dquote ++ "U" ++ dquote) args = true
  /\ includes "-G" args = false.
Proof. repeat split. Qed.

(** C2 at the failing input: no user is given and [useAad] is not
    true, yet the result carries a [-U] flag, whose value is the text
    [undefined]. *)
Theorem buildSsmsMinCommandArgs_absent_user :
  user params0 = None
  /\ buildSsmsMinCommandArgs params0 =
       ("-a " ++ dquote ++ "X" ++ dquote ++ "    "
        ++ "-S " ++ dquote ++ "S" ++ dquote ++ "          "
        ++ "-U " ++ dquote ++ "undefined" ++ dquote ++ "          ")%string
  /\ includes "-U" (buildSsmsMinCommandArgs params0) = true.
Proof. repeat split. Qed.

Section WithLibraries.
Variable localize : string -> string -> string.
Variable path_join : string -> string -> string.

(** C3.  Whatever action is asked for, a launch builds its command
    line from parameters whose action is the server-properties
    identifier: the command line starts with the path and that [-a]
    flag, and the result event reports that action. *)
Theorem launchSsmsDialog_action_fixed (action : string)
    (profile : sqlops.IConnectionProfile) (urn : option string)
    (exe : string) :
  truthy exe = true ->
  exists params callback rest,
    trace (launchSsmsDialog localize action profile urn (Some exe)) =
      SendTelemetryEvent "LaunchSsmsDialog" [("action", PString action)]
      :: Exec (dquote ++ exe ++ dquote ++ " " ++ buildSsmsMinCommandArgs params)
           EmptyString callback
      :: rest
    /\ params = launchParams profile urn
    /\ Launcher.action params = serverPropertiesAction
    /\ startsWith ("-a " ++ dquote ++ serverPropertiesAction ++ dquote)
         (buildSsmsMinCommandArgs params) = true
    /\ spawned rest = []
    /\ forall code stdout stderr,
         callback code stdout stderr =
           [SendTelemetryEvent "LaunchSsmsDialogResult"
              [("action", PString serverPropertiesAction);
               ("returnCode", PNumber code);
               ("error", PString stderr)]].
Proof.
  intros E.
  eexists (launchParams profile urn), _, _.
  unfold launchSsmsDialog, bind, get, call. cbn [completion final trace truthy_opt].
  rewrite E. cbn -[buildSsmsMinCommandArgs launchParams useAad_is_true].
  repeat split.
  destruct (useAad_is_true (launchParams profile urn)); reflexivity.
Qed.

(** C4.  With no usable cached path, a launch shows the error
    notification and does nothing else: no process is spawned and no
    telemetry event is sent. *)
Theorem launchSsmsDialog_without_exePath (action : string)
    (profile : sqlops.IConnectionProfile) (urn : option string)
    (exePath : State) :
  truthy_opt exePath = false ->
  let r := launchSsmsDialog localize action profile urn exePath in
  r = MkRun
        [ShowErrorMessage
           (localize "adminToolExtWin.noExeError" "Unable to find SsmsMin.exe.")]
        (Normal tt) exePath
  /\ spawned (trace r) = []
  /\ telemetryNames (trace r) = []
  /\ stdinWrites (trace r) = [].
Proof.
  intros E. unfold launchSsmsDialog, bind, get, call.
  cbn [completion final trace]. rewrite E. cbn. repeat split.
Qed.

(** C5.  A launch with AAD authentication writes nothing to the
    input stream of the process; any other launch ends the stream
    once, with the password, or with the empty text when there is no
    password. *)
Theorem launchSsmsDialog_stdin (action : string)
    (profile : sqlops.IConnectionProfile) (urn : option string)
    (exe : string) :
  truthy exe = true ->
  let t := trace (launchSsmsDialog localize action profile urn (Some exe)) in
  let params := launchParams profile urn in
  (useAad params = Some true -> stdinWrites t = [])
  /\ (useAad params <> Some true ->
       stdinWrites t =
         [match Launcher.password params with
          | Some pw => pw
          | None => EmptyString
          end]).
Proof.
  intros E. cbv zeta.
  unfold launchSsmsDialog, bind, get, call. cbn [completion final trace truthy_opt].
  rewrite E. cbn -[buildSsmsMinCommandArgs launchParams useAad_is_true].
  pose proof (useAad_is_true_iff (launchParams profile urn)) as A.
  destruct (useAad_is_true (launchParams profile urn)).
  - split; [reflexivity | intros N; exfalso; apply N, A; reflexivity].
  - split; [intros Y; apply A in Y; discriminate | intros _].
    cbn. destruct (sqlops.password profile) as [[|c pw]|]; reflexivity.
Qed.

(** The run of [activate], case by case. *)
Lemma activate_run (h : Host) (exePath : State) :
  activate localize path_join h exePath =
  if (platform h =? "win32")%string then
    match getOrDownloadServer h with
    | Normal _ =>
        let started :=
          [RegisterCommand "adminToolExtWin.launchSsmsServerPropertiesDialog";
           NewServerProvider (downloadConfig path_join h);
           GetOrDownloadServer;
           SendTelemetryEvent "startup/ExtensionStarted"
             [("installationTime",
                PString (String_of_Z (installationComplete h - installationStart h)));
              ("beginningTimestamp",
                PString (String_of_Z (installationStart h)))];
           GetServerPath] in
        match getServerPath h with
        | Normal path =>
            MkRun started (Normal PromiseResolved)
              (if truthy_opt path then path else exePath)
        | Throw _ => MkRun started (Normal PromisePending) exePath
        end
    | Throw _ =>
        MkRun
          [RegisterCommand "adminToolExtWin.launchSsmsServerPropertiesDialog";
           NewServerProvider (downloadConfig path_join h);
           GetOrDownloadServer;
           SendTelemetryEvent "startup/ExtensionInitializationFailed" []]
          (Normal PromiseResolved) exePath
    end
  else
    MkRun
      [RegisterCommand "adminToolExtWin.launchSsmsServerPropertiesDialog";
       ShowErrorMessage
         (localize "adminToolExtWin.onlySupportedOnWindows"
            "The Admin Tool Extension is only supported on Windows platforms.")]
      (Normal ReturnsUndefined) exePath.
Proof.
  unfold activate.
  destruct (platform h =? "win32")%string; [| reflexivity].
  destruct (getOrDownloadServer h); [| reflexivity].
  destruct (getServerPath h) as [path |]; [| reflexivity].
  destruct (truthy_opt path); reflexivity.
Qed.

(** [activate] never stores a path that a launch would take for unset. *)
Lemma activate_exePath (h : Host) :
  let exePath := final (activate localize path_join h initialState) in
  exePath = None \/ truthy_opt exePath = true.
Proof.
  cbv zeta. rewrite activate_run.
  destruct (platform h =? "win32")%string; [| now left].
  destruct (getOrDownloadServer h); [| now left].
  destruct (getServerPath h) as [path |]; [| now left].
  cbn [final]. destruct (truthy_opt path) eqn:E; [now right | now left].
Qed.

(** C6.  On Windows, when the download fails, activation sends the
    initialization-failed event, shows no notification, leaves the
    cached path as it was and resolves. *)
Theorem activate_download_failure (h : Host) (exePath : State) (error : string) :
  platform h = "win32" ->
  getOrDownloadServer h = Throw error ->
  let r := activate localize path_join h exePath in
  r = MkRun
        [RegisterCommand "adminToolExtWin.launchSsmsServerPropertiesDialog";
         NewServerProvider (downloadConfig path_join h);
         GetOrDownloadServer;
         SendTelemetryEvent "startup/ExtensionInitializationFailed" []]
        (Normal PromiseResolved) exePath
  /\ errorMessages (trace r) = []
  /\ spawned (trace r) = [].
Proof.
  intros P F. cbv zeta. rewrite activate_run, P, F.
  repeat split.
Qed.

(** C10.  The configuration handed to the downloader has a truthy
    [strictSSL], whatever the setting: a falsy setting is replaced by
    [true]. *)
Theorem activate_strictSSL (h : Host) (exePath : State) (config : IConfig) :
  In (NewServerProvider config) (trace (activate localize path_join h exePath)) ->
  ToBoolean (strictSSL config) = true
  /\ (ToBoolean (httpConfiguration h "proxyStrictSSL") = false ->
       strictSSL config = Boolean true)
  /\ (ToBoolean (httpConfiguration h "proxyStrictSSL") = true ->
       strictSSL config = httpConfiguration h "proxyStrictSSL").
Proof.
  intros I.
  assert (config = downloadConfig path_join h) as ->.
  { rewrite activate_run in I.
    destruct (platform h =? "win32")%string;
      [destruct (getOrDownloadServer h);
         [destruct (getServerPath h) |] |];
      cbn [trace] in I;
      repeat (destruct I as [I | I];
              [try discriminate I; try (injection I as <-; reflexivity) |]);
      contradiction. }
  cbn [downloadConfig strictSSL]. unfold or.
  destruct (ToBoolean (httpConfiguration h "proxyStrictSSL")) eqn:E;
    repeat split; congruence.
Qed.

End WithLibraries.

Lemma launchSsmsDialog_action_fixed_witness :
  truthy "C:\ssmsmin.exe" = true
  /\ exists params callback rest,
      trace (launchSsmsDialog english "other" profile0 None (Some "C:\ssmsmin.exe")) =
        SendTelemetryEvent "LaunchSsmsDialog" [("action", PString "other")]
        :: Exec (dquote ++ "C:\ssmsmin.exe" ++ dquote ++ " "
                 ++ buildSsmsMinCommandArgs params)
             EmptyString callback
        :: rest
      /\ params = launchParams profile0 None
      /\ Launcher.action params = serverPropertiesAction
      /\ startsWith ("-a " ++ dquote ++ serverPropertiesAction ++ dquote)
           (buildSsmsMinCommandArgs params) = true
      /\ spawned rest = []
      /\ forall code stdout stderr,
           callback code stdout stderr =
             [SendTelemetryEvent "LaunchSsmsDialogResult"
                [("action", PString serverPropertiesAction);
                 ("returnCode", PNumber code);
                 ("error", PString stderr)]].
Proof.
  split; [reflexivity |].
  apply (launchSsmsDialog_action_fixed english "other" profile0 None).
  reflexivity.
Defined.

Lemma launchSsmsDialog_without_exePath_witness :
  truthy_opt initialState = false
  /\ let r := launchSsmsDialog english "other" profile0 None initialState in
     r = MkRun
           [ShowErrorMessage
              (english "adminToolExtWin.noExeError" "Unable to find SsmsMin.exe.")]
           (Normal tt) initialState
     /\ spawned (trace r) = []
     /\ telemetryNames (trace r) = []
     /\ stdinWrites (trace r) = [].
Proof.
  split; [reflexivity |].
  apply (launchSsmsDialog_without_exePath english "other" profile0 None initialState).
  reflexivity.
Defined.

Lemma launchSsmsDialog_stdin_witness :
  truthy "C:\ssmsmin.exe" = true
  /\ let t := trace (launchSsmsDialog english "other" profile0 None
                       (Some "C:\ssmsmin.exe")) in
     let params := launchParams profile0 None in
     (useAad params = Some true -> stdinWrites t = [])
     /\ (useAad params <> Some true ->
          stdinWrites t =
            [match Launcher.password params with
             | Some pw => pw
             | None => EmptyString
             end]).
Proof.
  split; [reflexivity |].
  apply (launchSsmsDialog_stdin english "other" profile0 None).
  reflexivity.
Defined.

Lemma activate_download_failure_witness :
  platform host0 = "win32"
  /\ getOrDownloadServer host0 = Throw "ENOTFOUND"
  /\ let r := activate english join_backslash host0 initialState in
     r = MkRun
           [RegisterCommand "adminToolExtWin.launchSsmsServerPropertiesDialog";
            NewServerProvider (downloadConfig join_backslash host0);
            GetOrDownloadServer;
            SendTelemetryEvent "startup/ExtensionInitializationFailed" []]
           (Normal PromiseResolved) initialState
     /\ errorMessages (trace r) = []
     /\ spawned (trace r) = [].
Proof.
  split; [reflexivity |]. split; [reflexivity |].
  apply (activate_download_failure english join_backslash host0 initialState
           (error := "ENOTFOUND")); reflexivity.
Defined.

Lemma activate_strictSSL_witness :
  In (NewServerProvider (downloadConfig join_backslash host0))
     (trace (activate english join_backslash host0 initialState))
  /\ ToBoolean (strictSSL (downloadConfig join_backslash host0)) = true
  /\ (ToBoolean (httpConfiguration host0 "proxyStrictSSL") = false ->
       strictSSL (downloadConfig join_backslash host0) = Boolean true)
  /\ (ToBoolean (httpConfiguration host0 "proxyStrictSSL") = true ->
       strictSSL (downloadConfig join_backslash host0)
       = httpConfiguration host0 "proxyStrictSSL").
Proof.
  assert (In (NewServerProvider (downloadConfig join_backslash host0))
            (trace (activate english join_backslash host0 initialState))) as I
    by (right; left; reflexivity).
  split; [exact I |].
  exact (activate_strictSSL I).
Defined.

End LauncherProps.

(* ================================================================= *)
(** ** Properties of the formatter picker *)

Module PickerProps.
Import Js Eff Picker Samples.

Section WithProviders.
Context {D R : Type}.
Context `{FormattingEditProvider D} `{FormattingEditProvider R}.
Variable localize : string -> string -> string.
Variable toKey : ExtensionIdentifier -> string.

#[local] Abbreviation Effect := (@Effect D R).
#[local] Abbreviation Services := (@Services D R).

Lemma or_string_empty (o : option string) :
  or_string o EmptyString =
  match o with Some name => name | None => EmptyString end.
Proof. destruct o as [[|c s]|]; reflexivity. Qed.

Lemma in_map_from {A B} (f : A -> nat -> B) (xs : list A) (i : nat) (y : B) :
  In y (map_from f i xs) ->
  exists k x, nth_error xs k = Some x /\ y = f x (i + k).
Proof.
  revert i. induction xs as [|x xs IH]; intros i; simpl; [easy |].
  intros [<- | I].
  - exists 0, x. now rewrite Nat.add_0_r.
  - destruct (IH _ I) as (k & x' & E & ->).
    exists (S k), x'. split; [exact E |]. f_equal. lia.
Qed.

Lemma length_map_from {A B} (f : A -> nat -> B) (xs : list A) (i : nat) :
  length (map_from f i xs) = length xs.
Proof.
  revert i. induction xs as [|x xs IH]; intros i; simpl;
    [reflexivity | now rewrite IH].
Qed.

(** One entry is offered per provider. *)
Lemma length_picksOf {T} `{FormattingEditProvider T} (provider : list T) :
  length (picksOf localize provider) = length provider.
Proof. apply length_map_from. Qed.

(** An entry offered for a list of providers carries the position
    of the provider it was built from. *)
Lemma in_picksOf {T} `{FormattingEditProvider T} (provider : list T)
    (item : IIndexedPick) :
  In item (picksOf localize provider) ->
  exists p, nth_error provider (index item) = Some p
            /\ item = entryOf localize (index item) p.
Proof.
  intros I. apply in_map_from in I as (k & p & E & ->).
  exists p. cbn. split; [exact E |].
  unfold entryOf. cbn. now rewrite or_string_empty.
Qed.

(** The run of "Format Document With...", case by case. *)
Lemma document_run (services : Services) (editor : ICodeEditor) :
  FormatDocumentMultipleAction_run localize toKey services editor tt =
  match getModel editor with
  | None => MkRun [] (Normal tt) tt
  | Some model =>
      let provider := getRealAndSyntheticDocumentFormattersOrdered services model in
      let picks := picksOf localize provider in
      let shown :=
        QuickPick picks (localize "format.placeHolder" "Select a formatter")
          (onDidTriggerItemButton provider) in
      match quickPickService_pick services picks with
      | Some item =>
          let chosen := nth_error provider (index item) in
          match formatDocumentWithProvider services chosen with
          | Normal _ =>
              MkRun
                [shown; FormatDocumentWithProvider chosen;
                 PublicLog "formatterpick"
                   {| mode := "document";
                      extensions := map (extKey toKey) provider;
                      pick := match chosen with
                              | Some p => extKey toKey p
                              | None => "none"
                              end |}]
                (Normal tt) tt
          | Throw e =>
              MkRun [shown; FormatDocumentWithProvider chosen] (Throw e) tt
          end
      | None =>
          MkRun
            [shown;
             PublicLog "formatterpick"
               {| mode := "document";
                  extensions := map (extKey toKey) provider;
                  pick := "none" |}]
            (Normal tt) tt
      end
  end.
Proof.
  unfold FormatDocumentMultipleAction_run.
  destruct (getModel editor) as [model |]; [| reflexivity].
  cbv zeta.
  destruct (quickPickService_pick services _) as [item |]; [| reflexivity].
  unfold bind, call, await, logFormatterTelemetry.
  cbn [trace completion final].
  destruct (formatDocumentWithProvider services _) as [[] |]; reflexivity.
Qed.

(** The range that "Format Selection With..." formats. *)
Lemma selectionRange_run (model : ITextModel) (selection : Range) :
  selectionRange (D := D) (R := R) model selection tt =
  if isEmpty selection then
    match getLineMaxColumn model (startLineNumber selection) with
    | Normal maxColumn =>
        MkRun []
          (Normal {| startLineNumber := startLineNumber selection;
                     startColumn := 1;
                     endLineNumber := startLineNumber selection;
                     endColumn := maxColumn |})
          tt
    | Throw e => MkRun [] (Throw e) tt
    end
  else MkRun [] (Normal selection) tt.
Proof.
  unfold selectionRange. destruct (isEmpty selection); [| reflexivity].
  unfold bind, await, ret. cbn [completion trace final].
  destruct (getLineMaxColumn model _); reflexivity.
Qed.

(** The run of "Format Selection With...", case by case. *)
Lemma selection_run (services : Services) (editor : ICodeEditor) :
  FormatSelectionMultipleAction_run localize toKey services editor tt =
  match getModel editor with
  | None => MkRun [] (Normal tt) tt
  | Some model =>
      match completion (selectionRange (D := D) (R := R) model
                          (getSelection editor) tt) with
      | Throw e => MkRun [] (Throw e) tt
      | Normal range =>
          let provider :=
            DocumentRangeFormattingEditProviderRegistry_ordered services model in
          let picks := picksOf localize provider in
          let shown :=
            QuickPick picks (localize "format.placeHolder" "Select a formatter")
              (onDidTriggerItemButton provider) in
          match quickPickService_pick services picks with
          | Some item =>
              let chosen := nth_error provider (index item) in
              match formatDocumentRangeWithProvider services chosen range with
              | Normal _ =>
                  MkRun
                    [shown; FormatDocumentRangeWithProvider chosen range;
                     PublicLog "formatterpick"
                       {| mode := "range";
                          extensions := map (extKey toKey) provider;
                          pick := match chosen with
                                  | Some p => extKey toKey p
                                  | None => "none"
                                  end |}]
                    (Normal tt) tt
              | Throw e =>
                  MkRun [shown; FormatDocumentRangeWithProvider chosen range]
                    (Throw e) tt
              end
          | None =>
              MkRun
                [shown;
                 PublicLog "formatterpick"
                   {| mode := "range";
                      extensions := map (extKey toKey) provider;
                      pick := "none" |}]
                (Normal tt) tt
          end
      end
  end.
Proof.
  unfold FormatSelectionMultipleAction_run.
  destruct (getModel editor) as [model |]; [| reflexivity].
  unfold bind at 1. rewrite selectionRange_run.
  destruct (isEmpty (getSelection editor));
    [destruct (getLineMaxColumn model _) as [maxColumn | e];
       [| reflexivity] |];
    cbn [completion trace final app]; cbv zeta;
    (destruct (quickPickService_pick services _) as [item |];
       [| reflexivity]);
    unfold bind, call, await, logFormatterTelemetry;
    cbn [trace completion final];
    destruct (formatDocumentRangeWithProvider services _ _) as [[] |];
    reflexivity.
Qed.

(** C7.  When the quick pick of either command is dismissed, no
    formatting call is made and exactly one telemetry event is
    logged: [formatterpick], with the mode of the command and the
    pick [none]. *)
Theorem cancel_logs_none (c : Command) (services : Services)
    (editor : ICodeEditor) (picks : list IIndexedPick) :
  let t := trace (run localize toKey c services editor tt) in
  In picks (quickPicks t) ->
  quickPickService_pick services picks = None ->
  documentFormats t = []
  /\ rangeFormats t = []
  /\ exists offered,
       publicLogs t =
         [("formatterpick",
           {| mode := commandMode c; extensions := offered; pick := "none" |})]
       /\ length offered = length picks.
Proof.
  cbv zeta. destruct c; unfold run.
  - rewrite document_run.
    destruct (getModel editor) as [model |]; [| intros []].
    cbv zeta.
    destruct (quickPickService_pick services (picksOf _ _)) as [item |] eqn:Q.
    + intros I N. exfalso.
      destruct (formatDocumentWithProvider services _);
        cbn [trace quickPicks In] in I;
        destruct I as [<- | []]; congruence.
    + cbn [trace quickPicks In]. intros [<- | []] _.
      repeat split. eexists; split; [reflexivity |].
      now rewrite length_map, length_picksOf.
  - rewrite selection_run.
    destruct (getModel editor) as [model |]; [| intros []].
    destruct (completion _) as [range | e]; [| intros []].
    cbv zeta.
    destruct (quickPickService_pick services (picksOf _ _)) as [item |] eqn:Q.
    + intros I N. exfalso.
      destruct (formatDocumentRangeWithProvider services _ _);
        cbn [trace quickPicks In] in I;
        destruct I as [<- | []]; congruence.
    + cbn [trace quickPicks In]. intros [<- | []] _.
      repeat split. eexists; split; [reflexivity |].
      now rewrite length_map, length_picksOf.
Qed.

(** C8.  When the user selects an entry, the one formatting call
    of the run is made with the provider found at the index of that
    entry in the list resolved by this run; for an entry that was
    offered, that is the provider the entry was built from. *)
Theorem selected_provider_formats (c : Command) (services : Services)
    (editor : ICodeEditor) (picks : list IIndexedPick) (item : IIndexedPick) :
  let t := trace (run localize toKey c services editor tt) in
  In picks (quickPicks t) ->
  quickPickService_pick services picks = Some item ->
  exists model,
    getModel editor = Some model
    /\ match c with
       | FormatDocumentMultiple =>
           let provider :=
             getRealAndSyntheticDocumentFormattersOrdered services model in
           picks = picksOf localize provider
           /\ documentFormats t = [nth_error provider (index item)]
           /\ rangeFormats t = []
           /\ (In item picks ->
                exists p, nth_error provider (index item) = Some p
                          /\ item = entryOf localize (index item) p)
       | FormatSelectionMultiple =>
           let provider :=
             DocumentRangeFormattingEditProviderRegistry_ordered services model in
           picks = picksOf localize provider
           /\ documentFormats t = []
           /\ (exists range,
                 rangeFormats t = [(nth_error provider (index item), range)])
           /\ (In item picks ->
                exists p, nth_error provider (index item) = Some p
                          /\ item = entryOf localize (index item) p)
       end.
Proof.
  cbv zeta. destruct c; unfold run.
  - rewrite document_run.
    destruct (getModel editor) as [model |]; [| intros []].
    cbv zeta. intros I Q. exists model. split; [reflexivity |].
    assert (picks =
            picksOf localize
              (getRealAndSyntheticDocumentFormattersOrdered services model)) as ->.
    { destruct (quickPickService_pick services (picksOf _ _)) as [item' |];
        [destruct (formatDocumentWithProvider services _) |];
        cbn [trace quickPicks In] in I; destruct I as [<- | []]; reflexivity. }
    rewrite Q.
    split; [reflexivity |].
    split; [destruct (formatDocumentWithProvider services _); reflexivity |].
    split; [destruct (formatDocumentWithProvider services _); reflexivity |].
    apply in_picksOf.
  - rewrite selection_run.
    destruct (getModel editor) as [model |]; [| intros []].
    destruct (completion _) as [range | e]; [| intros []].
    cbv zeta. intros I Q. exists model. split; [reflexivity |].
    assert (picks =
            picksOf localize
              (DocumentRangeFormattingEditProviderRegistry_ordered services model))
      as ->.
    { destruct (quickPickService_pick services (picksOf _ _)) as [item' |];
        [destruct (formatDocumentRangeWithProvider services _ _) |];
        cbn [trace quickPicks In] in I; destruct I as [<- | []]; reflexivity. }
    rewrite Q.
    split; [reflexivity |].
    split; [destruct (formatDocumentRangeWithProvider services _ _); reflexivity |].
    split; [exists range;
            destruct (formatDocumentRangeWithProvider services _ _); reflexivity |].
    apply in_picksOf.
Qed.

(** C9.  In "Format Selection With...", once a provider is chosen,
    the range formatted is the selection itself when it is not empty,
    and the whole line of the cursor, from column 1 to one past the
    length of the line, when it is empty. *)
Theorem selection_range_formatted (services : Services) (editor : ICodeEditor)
    (model : ITextModel) (item : IIndexedPick) :
  getModel editor = Some model ->
  quickPickService_pick services
    (picksOf localize
       (DocumentRangeFormattingEditProviderRegistry_ordered services model))
  = Some item ->
  let selection := getSelection editor in
  let t := trace (FormatSelectionMultipleAction_run localize toKey
                    services editor tt) in
  let chosen :=
    nth_error (DocumentRangeFormattingEditProviderRegistry_ordered services model)
      (index item) in
  (isEmpty selection = false -> rangeFormats t = [(chosen, selection)])
  /\ (isEmpty selection = true ->
       forall line,
         1 <= startLineNumber selection ->
         nth_error (lines model) (startLineNumber selection - 1) = Some line ->
         rangeFormats t =
           [(chosen,
             {| startLineNumber := startLineNumber selection;
                startColumn := 1;
                endLineNumber := startLineNumber selection;
                endColumn := String.length line + 1 |})]).
Proof.
  intros M Q. cbv zeta. rewrite selection_run, M, selectionRange_run.
  split; intros E; rewrite E.
  - cbn [completion]. cbv zeta. rewrite Q.
    destruct (formatDocumentRangeWithProvider services _ _); reflexivity.
  - intros line L N. unfold getLineMaxColumn.
    destruct (startLineNumber (getSelection editor)) as [| k]; [lia |].
    cbn [Nat.sub] in N. rewrite Nat.sub_0_r in N. rewrite N.
    cbn [completion]. cbv zeta. rewrite Q.
    destruct (formatDocumentRangeWithProvider services _ _); reflexivity.
Qed.

End WithProviders.

Lemma cancel_logs_none_witness :
  let t := trace (run english sampleKey FormatSelectionMultiple
                    (sampleServices None) sampleEditor tt) in
  In samplePicks (quickPicks t)
  /\ quickPickService_pick (sampleServices None) samplePicks = None
  /\ documentFormats t = []
  /\ rangeFormats t = []
  /\ exists offered,
       publicLogs t =
         [("formatterpick",
           {| mode := "range"; extensions := offered; pick := "none" |})]
       /\ length offered = length samplePicks.
Proof.
  cbv zeta.
  assert (In samplePicks
            (quickPicks
               (trace (run english sampleKey FormatSelectionMultiple
                         (sampleServices None) sampleEditor tt)))) as I
    by (left; reflexivity).
  split; [exact I |]. split; [reflexivity |].
  exact (cancel_logs_none english sampleKey FormatSelectionMultiple
           (sampleServices None) sampleEditor samplePicks I eq_refl).
Defined.

Lemma selected_provider_formats_witness :
  let t := trace (run english sampleKey FormatDocumentMultiple
                    (sampleServices (Some 1)) sampleEditor tt) in
  let picks := picksOf english [prettier; builtin] in
  let item := entryOf english 1 builtin in
  In picks (quickPicks t)
  /\ quickPickService_pick (sampleServices (Some 1)) picks = Some item
  /\ documentFormats t = [Some builtin]
  /\ rangeFormats t = [].
Proof.
  cbv zeta.
  assert (In (picksOf english [prettier; builtin])
            (quickPicks
               (trace (run english sampleKey FormatDocumentMultiple
                         (sampleServices (Some 1)) sampleEditor tt)))) as I
    by (left; reflexivity).
  assert (quickPickService_pick (sampleServices (Some 1))
            (picksOf english [prettier; builtin])
          = Some (entryOf english 1 builtin)) as Q by reflexivity.
  split; [exact I |]. split; [exact Q |].
  destruct (selected_provider_formats english sampleKey FormatDocumentMultiple
              (sampleServices (Some 1)) sampleEditor
              (picksOf english [prettier; builtin]) I Q)
    as (model & M & _ & F & G & _).
  injection M as <-. split; [exact F | exact G].
Defined.

Lemma selection_range_formatted_witness :
  let t := trace (FormatSelectionMultipleAction_run english sampleKey
                    (sampleServices (Some 0)) sampleEditor tt) in
  getModel sampleEditor = Some sampleModel
  /\ isEmpty (getSelection sampleEditor) = true
  /\ nth_error (lines sampleModel) 1 = Some "  return x"
  /\ rangeFormats t =
       [(Some builtin,
         {| startLineNumber := 2; startColumn := 1;
            endLineNumber := 2; endColumn := 11 |})].
Proof.
  cbv zeta. split; [reflexivity |]. split; [reflexivity |]. split; [reflexivity |].
  assert (quickPickService_pick (sampleServices (Some 0))
            (picksOf english [builtin; prettier])
          = Some (entryOf english 0 builtin)) as Q by reflexivity.
  pose proof (selection_range_formatted english sampleKey
                (sampleServices (Some 0)) sampleEditor
                (model := sampleModel) eq_refl Q) as [_ W].
  exact (W eq_refl "  return x" (le_S _ _ (le_n 1)) eq_refl).
Defined.

End PickerProps.

(* ================================================================= *)
(** ** Further properties of the launcher *)

Module LauncherMore.
Import Js Eff Launcher StringFacts Samples MoreSamples LauncherProps.

Lemma startsWith_refl (p : string) : startsWith p p = true.
Proof.
  induction p as [|x p IH]; simpl; [reflexivity |].
  now rewrite Ascii.eqb_refl, IH.
Qed.

Lemma startsWith_app_both (a p s : string) :
  startsWith (a ++ p) (a ++ s) = startsWith p s.
Proof.
  induction a as [|x a IH]; simpl; [reflexivity |].
  now rewrite Ascii.eqb_refl, IH.
Qed.

Lemma truthy_opt_Some (o : option string) :
  truthy_opt o = true -> exists s, o = Some s /\ truthy s = true.
Proof. destruct o as [s |]; [intros E; now exists s | discriminate]. Qed.

Section WithLibraries.
Variable localize : string -> string -> string.
Variable path_join : string -> string -> string.

(** The run of a launch that finds a cached path. *)
Lemma launch_run (action : string) (profile : sqlops.IConnectionProfile)
    (urn : option string) (exe : string) :
  truthy exe = true ->
  launchSsmsDialog localize action profile urn (Some exe) =
  MkRun
    (SendTelemetryEvent "LaunchSsmsDialog" [("action", PString action)]
     :: Exec (dquote ++ exe ++ dquote ++ " "
              ++ buildSsmsMinCommandArgs (launchParams profile urn))
          EmptyString
          (fun code stdout stderr =>
             [SendTelemetryEvent "LaunchSsmsDialogResult"
                [("action", PString (Launcher.action (launchParams profile urn)));
                 ("returnCode", PNumber code);
                 ("error", PString stderr)]])
     :: (if useAad_is_true (launchParams profile urn) then []
         else [StdinEnd
                 (if truthy_opt (Launcher.password (launchParams profile urn))
                  then concat_operand (Launcher.password (launchParams profile urn))
                  else EmptyString)]))
    (Normal tt) (Some exe).
Proof.
  intros E.
  unfold launchSsmsDialog, bind, get, call.
  cbn [completion final trace truthy_opt]. rewrite E.
  cbn -[buildSsmsMinCommandArgs launchParams useAad_is_true truthy_opt
        concat_operand].
  destruct (useAad_is_true (launchParams profile urn)); reflexivity.
Qed.

(** A launch that finds a cached path spawns one process. *)
Lemma spawned_launch (action : string) (profile : sqlops.IConnectionProfile)
    (urn : option string) (exe : string) :
  truthy exe = true ->
  spawned (trace (launchSsmsDialog localize action profile urn (Some exe))) =
  [(dquote ++ exe ++ dquote ++ " "
    ++ buildSsmsMinCommandArgs (launchParams profile urn))%string].
Proof.
  intros T. rewrite (@launch_run _ _ _ exe T). cbn [trace spawned].
  destruct (useAad_is_true _); reflexivity.
Qed.

(** The run of a launch that finds no cached path. *)
Lemma launch_unset (action : string) (profile : sqlops.IConnectionProfile)
    (urn : option string) (exePath : State) :
  truthy_opt exePath = false ->
  launchSsmsDialog localize action profile urn exePath =
  MkRun
    [ShowErrorMessage
       (localize "adminToolExtWin.noExeError" "Unable to find SsmsMin.exe.")]
    (Normal tt) exePath.
Proof.
  intros E. unfold launchSsmsDialog, bind, get, call.
  cbn [completion final trace]. rewrite E. reflexivity.
Qed.

(** X1.  On a platform other than win32, activation registers the
    command, shows the notification and returns no promise: no
    downloader is created, no event is sent, no path is cached. *)
Theorem activate_unsupported_platform (h : Host) (exePath : State) :
  platform h <> "win32" ->
  activate localize path_join h exePath =
  MkRun
    [RegisterCommand "adminToolExtWin.launchSsmsServerPropertiesDialog";
     ShowErrorMessage
       (localize "adminToolExtWin.onlySupportedOnWindows"
          "The Admin Tool Extension is only supported on Windows platforms.")]
    (Normal ReturnsUndefined) exePath.
Proof.
  intros P. rewrite activate_run.
  destruct (String.eqb_spec (platform h) "win32") as [E | _];
    [contradiction | reflexivity].
Qed.

(** X2.  On win32, when the download succeeds and the downloader
    answers the path request, activation sends the started event with
    the elapsed time, resolves, and caches the path when it is a
    non-empty string; an absent or empty path leaves the cache as it
    was. *)
Theorem activate_download_success (h : Host) (exePath : State)
    (done : unit) (path : option string) :
  platform h = "win32" ->
  getOrDownloadServer h = Normal done ->
  getServerPath h = Normal path ->
  let r := activate localize path_join h exePath in
  trace r =
    [RegisterCommand "adminToolExtWin.launchSsmsServerPropertiesDialog";
     NewServerProvider (downloadConfig path_join h);
     GetOrDownloadServer;
     SendTelemetryEvent "startup/ExtensionStarted"
       [("installationTime",
          PString (String_of_Z (installationComplete h - installationStart h)));
        ("beginningTimestamp", PString (String_of_Z (installationStart h)))];
     GetServerPath]
  /\ completion r = Normal PromiseResolved
  /\ final r = (if truthy_opt path then path else exePath)
  /\ errorMessages (trace r) = [].
Proof.
  intros P D G. cbv zeta. rewrite activate_run, P, D, G.
  repeat split.
Qed.

(** X3.  On win32, when the download succeeds but the path request is
    rejected, the promise of activation never settles; the started
    event was sent, no failure event is, and nothing is cached. *)
Theorem activate_path_rejected (h : Host) (exePath : State)
    (done : unit) (error : string) :
  platform h = "win32" ->
  getOrDownloadServer h = Normal done ->
  getServerPath h = Throw error ->
  let r := activate localize path_join h exePath in
  completion r = Normal PromisePending
  /\ final r = exePath
  /\ telemetryNames (trace r) = ["startup/ExtensionStarted"]
  /\ errorMessages (trace r) = [].
Proof.
  intros P D G. cbv zeta. rewrite activate_run, P, D, G.
  repeat split.
Qed.

(** The handler, given a context with a profile, is a launch. *)
Lemma handle_profile (ctx : ConnectionContext)
    (profile : sqlops.IConnectionProfile) (exePath : State) :
  connectionProfile ctx = Some profile ->
  handleLaunchSsmsServerPropertiesDialogCommand localize (Some ctx) exePath =
  launchSsmsDialog localize
    "sqla:Properties@Microsoft.SqlServer.Management.Smo.Server" profile
    (Some ("Server[@Name='" ++ sqlops.serverName profile ++ "']")%string)
    exePath.
Proof.
  intros E. unfold handleLaunchSsmsServerPropertiesDialogCommand.
  now rewrite E.
Qed.

(** X4.  When activation caches no path (wrong platform, failed
    download, rejected or empty path request), the command, invoked
    afterwards on a connection, shows the error notification and does
    nothing else. *)
Theorem command_after_failed_activation (h : Host) (ctx : ConnectionContext)
    (profile : sqlops.IConnectionProfile) :
  connectionProfile ctx = Some profile ->
  platform h <> "win32"
  \/ (exists e, getOrDownloadServer h = Throw e)
  \/ (exists e, getServerPath h = Throw e)
  \/ (exists path, getServerPath h = Normal path /\ truthy_opt path = false) ->
  let cached := final (activate localize path_join h initialState) in
  handleLaunchSsmsServerPropertiesDialogCommand localize (Some ctx) cached =
  MkRun
    [ShowErrorMessage
       (localize "adminToolExtWin.noExeError" "Unable to find SsmsMin.exe.")]
    (Normal tt) None.
Proof.
  intros C F. cbv zeta.
  assert (final (activate localize path_join h initialState) = None) as ->.
  { rewrite activate_run.
    destruct (String.eqb_spec (platform h) "win32") as [P | P];
      [| reflexivity].
    destruct F as [F | [(e & F) | [(e & F) | (path & F & T)]]].
    - contradiction.
    - now rewrite F.
    - rewrite F. now destruct (getOrDownloadServer h).
    - rewrite F. destruct (getOrDownloadServer h); [| reflexivity].
      cbn [final]. now rewrite T. }
  rewrite (@handle_profile ctx profile None C). now apply launch_unset.
Qed.

(** X5.  When activation on win32 finds the executable, the command,
    invoked afterwards on a connection, spawns exactly one process: the
    quoted path followed by the arguments built from the connection;
    no notification is shown. *)
Theorem command_after_activation (h : Host) (ctx : ConnectionContext)
    (profile : sqlops.IConnectionProfile) (done : unit) (exe : string) :
  connectionProfile ctx = Some profile ->
  platform h = "win32" ->
  getOrDownloadServer h = Normal done ->
  getServerPath h = Normal (Some exe) ->
  truthy exe = true ->
  let cached := final (activate localize path_join h initialState) in
  let t := trace (handleLaunchSsmsServerPropertiesDialogCommand localize
                    (Some ctx) cached) in
  cached = Some exe
  /\ spawned t =
       [(dquote ++ exe ++ dquote ++ " "
         ++ buildSsmsMinCommandArgs
              (launchParams profile
                 (Some ("Server[@Name='" ++ sqlops.serverName profile ++ "']"))))%string]
  /\ errorMessages t = [].
Proof.
  intros C P D G T. cbv zeta.
  assert (final (activate localize path_join h initialState) = Some exe) as ->.
  { rewrite activate_run, P, D, G. cbn [final truthy_opt]. now rewrite T. }
  rewrite (@handle_profile ctx profile (Some exe) C), (@launch_run _ _ _ exe T).
  cbn [trace spawned errorMessages].
  destruct (useAad_is_true _); repeat split.
Qed.

(** X6.  Without a connection profile the handler makes no host call
    and leaves the cached path alone: given a context without a profile
    it returns, given no context at all it throws. *)
Theorem handler_without_profile (connectionContext : option ConnectionContext)
    (exePath : State) :
  match connectionContext with
  | Some ctx => connectionProfile ctx = None
  | None => True
  end ->
  let r := handleLaunchSsmsServerPropertiesDialogCommand localize
             connectionContext exePath in
  trace r = []
  /\ final r = exePath
  /\ (completion r = Normal tt <-> connectionContext <> None).
Proof.
  intros C. cbv zeta. unfold handleLaunchSsmsServerPropertiesDialogCommand.
  destruct connectionContext as [ctx |].
  - rewrite C. repeat split; congruence.
  - repeat split; [discriminate | congruence].
Qed.

(** X7.  A launch through the handler asks for the server properties
    dialog of the server of the connection: the request event, the
    result event and the command line name the same action, and the
    command line holds the URN of that server. *)
Theorem handler_launches_server_properties (ctx : ConnectionContext)
    (profile : sqlops.IConnectionProfile) (exe : string) :
  connectionProfile ctx = Some profile ->
  truthy exe = true ->
  let t := trace (handleLaunchSsmsServerPropertiesDialogCommand localize
                    (Some ctx) (Some exe)) in
  exists command callback,
    In (SendTelemetryEvent "LaunchSsmsDialog"
          [("action", PString serverPropertiesAction)]) t
    /\ In (Exec command EmptyString callback) t
    /\ spawned t = [command]
    /\ startsWith (dquote ++ exe ++ dquote ++ " " ++ "-a " ++ dquote
                    ++ serverPropertiesAction ++ dquote) command = true
    /\ includes ("-u " ++ dquote
                  ++ ("Server[@Name='" ++ sqlops.serverName profile ++ "']")
                  ++ dquote) command = true
    /\ forall code stdout stderr,
         callback code stdout stderr =
           [SendTelemetryEvent "LaunchSsmsDialogResult"
              [("action", PString serverPropertiesAction);
               ("returnCode", PNumber code);
               ("error", PString stderr)]].
Proof.
  intros C T. cbv zeta.
  rewrite (@handle_profile ctx profile (Some exe) C), (@launch_run _ _ _ exe T).
  cbn [trace]. eexists _, _.
  split; [left; reflexivity |].
  split; [right; left; reflexivity |].
  split; [cbn [spawned]; destruct (useAad_is_true _); reflexivity |].
  split; [| split; [| reflexivity]].
  - rewrite !startsWith_app_both.
    unfold buildSsmsMinCommandArgs.
    assert (truthy (Launcher.action
                      (launchParams profile
                         (Some ("Server[@Name='" ++ sqlops.serverName profile
                                ++ "']")%string))) = true) as -> by reflexivity.
    exact (startsWith_app _ _).
  - unfold buildSsmsMinCommandArgs.
    assert (truthy_opt (Launcher.urn
                          (launchParams profile
                             (Some ("Server[@Name='" ++ sqlops.serverName profile
                                    ++ "']")%string))) = true) as -> by reflexivity.
    cbn [Launcher.urn launchParams concat_operand].
    do 18 apply includes_app_r.
    apply includes_startsWith. exact (startsWith_refl _).
Qed.

(** X8.  The password of the connection never reaches the command
    line: two launches that differ in the password only spawn the same
    command. *)
Theorem password_not_on_command_line (action serverName : string)
    (databaseName userName authenticationType urn pw pw' : option string)
    (exePath : State) :
  spawned (trace (launchSsmsDialog localize action
                    {| sqlops.serverName := serverName;
                       sqlops.databaseName := databaseName;
                       sqlops.userName := userName;
                       sqlops.password := pw;
                       sqlops.authenticationType := authenticationType |}
                    urn exePath))
  = spawned (trace (launchSsmsDialog localize action
                      {| sqlops.serverName := serverName;
                         sqlops.databaseName := databaseName;
                         sqlops.userName := userName;
                         sqlops.password := pw';
                         sqlops.authenticationType := authenticationType |}
                      urn exePath)).
Proof.
  destruct (truthy_opt exePath) eqn:E.
  - apply truthy_opt_Some in E as (exe & -> & T).
    rewrite !(spawned_launch _ _ _ _ T). reflexivity.
  - now rewrite !(launch_unset _ _ _ _ E).
Qed.

(** X9.  A launch leaves the input stream of the process alone exactly
    when the authentication type of the connection is [AzureMFA]. *)
Theorem stdin_untouched_iff_AzureMFA (action : string)
    (profile : sqlops.IConnectionProfile) (urn : option string) (exe : string) :
  truthy exe = true ->
  stdinWrites (trace (launchSsmsDialog localize action profile urn (Some exe))) = []
  <-> sqlops.authenticationType profile = Some "AzureMFA".
Proof.
  intros T. rewrite (@launch_run _ _ _ exe T). cbn [trace stdinWrites].
  unfold useAad_is_true. cbn [useAad launchParams].
  destruct (sqlops.authenticationType profile) as [t |].
  - destruct (String.eqb_spec t "AzureMFA") as [-> | N].
    + split; reflexivity.
    + split; [discriminate | intros E; congruence].
  - split; discriminate.
Qed.

(** X10.  Only activation writes the cached path: the command handler
    and a launch leave it as they find it, whatever they are given. *)
Theorem commands_keep_exePath (connectionContext : option ConnectionContext)
    (action : string) (profile : sqlops.IConnectionProfile)
    (urn : option string) (exePath : State) :
  final (handleLaunchSsmsServerPropertiesDialogCommand localize
           connectionContext exePath) = exePath
  /\ final (launchSsmsDialog localize action profile urn exePath) = exePath.
Proof.
  assert (forall a p u, final (launchSsmsDialog localize a p u exePath) = exePath)
    as L.
  { intros a p u. destruct (truthy_opt exePath) eqn:E.
    - apply truthy_opt_Some in E as (exe & -> & T).
      now rewrite (@launch_run _ _ _ exe T).
    - now rewrite (launch_unset _ _ _ _ E). }
  split; [| apply L].
  unfold handleLaunchSsmsServerPropertiesDialogCommand.
  destruct connectionContext as [ctx |]; [| reflexivity].
  destruct (connectionProfile ctx); [apply L | reflexivity].
Qed.

End WithLibraries.

(** The case analysis of [by_cases], for any flag. *)
Ltac by_cases_optional params :=
  let H := fresh "H" in
  destruct params as [a s d u pw aad n];
  unfold interpolated, buildSsmsMinCommandArgs, useAad_is_true;
  cbn [action server database user password useAad urn];
  intros H;
  destruct d as [d|], n as [n|], aad as [[|]|], u as [u|];
  cbn [optional app forallb concat_operand truthy_opt negb] in H |- *;
  split_clean;
  destruct (truthy a), (truthy s);
  try destruct (truthy d); try destruct (truthy n);
  scan; use_clean.

Lemma includes_a (params : LaunchSsmsDialogParams) :
  forallb (fun v => negb (includes "-a" v)) (interpolated params) = true ->
  includes "-a" (buildSsmsMinCommandArgs params) = truthy (action params).
Proof. by_cases_optional params. Qed.

Lemma includes_S (params : LaunchSsmsDialogParams) :
  forallb (fun v => negb (includes "-S" v)) (interpolated params) = true ->
  includes "-S" (buildSsmsMinCommandArgs params) = truthy (server params).
Proof. by_cases_optional params. Qed.

Lemma includes_D (params : LaunchSsmsDialogParams) :
  forallb (fun v => negb (includes "-D" v)) (interpolated params) = true ->
  includes "-D" (buildSsmsMinCommandArgs params) = truthy_opt (database params).
Proof. by_cases_optional params. Qed.

Lemma includes_u (params : LaunchSsmsDialogParams) :
  forallb (fun v => negb (includes "-u" v)) (interpolated params) = true ->
  includes "-u" (buildSsmsMinCommandArgs params) = truthy_opt (urn params).
Proof. by_cases_optional params. Qed.

Lemma forallb_weaken {A} (f g : A -> bool) (l : list A) :
  (forall x, f x = true -> g x = true) ->
  forallb f l = true -> forallb g l = true.
Proof.
  intros I. induction l as [| x l IH]; [reflexivity |]. cbn.
  intros E. apply andb_true_iff in E as [E1 E2].
  now rewrite (I _ E1), (IH E2).
Qed.

(** X11.  For field values in which none of [-a], [-S], [-D], [-u]
    occurs, each of these flags is in the result exactly when its own
    field is a non-empty string: an absent and an empty action, server,
    database or URN are both left out. *)
Theorem optional_flags (params : LaunchSsmsDialogParams) :
  forallb (fun v => negb (includes "-a" v) && negb (includes "-S" v)
                    && negb (includes "-D" v) && negb (includes "-u" v))
    (interpolated params) = true ->
  let args := buildSsmsMinCommandArgs params in
  includes "-a" args = truthy (action params)
  /\ includes "-S" args = truthy (server params)
  /\ includes "-D" args = truthy_opt (database params)
  /\ includes "-u" args = truthy_opt (urn params).
Proof.
  intros H. cbv zeta.
  repeat split;
    [apply includes_a | apply includes_S | apply includes_D | apply includes_u];
    revert H; apply forallb_weaken; intros v E;
    repeat (apply andb_true_iff in E as [E ?]); assumption.
Qed.

Lemma activate_unsupported_platform_witness :
  platform hostLinux <> "win32"
  /\ activate english join_backslash hostLinux initialState =
     MkRun
       [RegisterCommand "adminToolExtWin.launchSsmsServerPropertiesDialog";
        ShowErrorMessage
          "The Admin Tool Extension is only supported on Windows platforms."]
       (Normal ReturnsUndefined) initialState.
Proof.
  assert (platform hostLinux <> "win32") as N by discriminate.
  split; [exact N |].
  exact (@activate_unsupported_platform english join_backslash hostLinux
           initialState N).
Defined.

Lemma activate_download_success_witness :
  platform hostReady = "win32"
  /\ final (activate english join_backslash hostReady initialState)
     = Some "C:\ext\ssmsmin\SsmsMin.exe"
  /\ completion (activate english join_backslash hostReady initialState)
     = Normal PromiseResolved.
Proof.
  split; [reflexivity |].
  destruct (@activate_download_success english join_backslash hostReady
              initialState tt (Some "C:\ext\ssmsmin\SsmsMin.exe")
              eq_refl eq_refl eq_refl) as (_ & C & F & _).
  split; [exact F | exact C].
Defined.

Lemma activate_path_rejected_witness :
  getServerPath hostPathRejected = Throw "ENOENT"
  /\ completion (activate english join_backslash hostPathRejected initialState)
     = Normal PromisePending.
Proof.
  split; [reflexivity |].
  exact (proj1 (@activate_path_rejected english join_backslash hostPathRejected
                  initialState tt "ENOENT" eq_refl eq_refl eq_refl)).
Defined.

Lemma command_after_failed_activation_witness :
  connectionProfile context0 = Some profile0
  /\ handleLaunchSsmsServerPropertiesDialogCommand english (Some context0)
       (final (activate english join_backslash host0 initialState))
     = MkRun [ShowErrorMessage "Unable to find SsmsMin.exe."] (Normal tt) None.
Proof.
  split; [reflexivity |].
  apply (@command_after_failed_activation english join_backslash host0
           context0 profile0 eq_refl).
  right; left. exists "ENOTFOUND". reflexivity.
Defined.

Lemma command_after_activation_witness :
  truthy "C:\ext\ssmsmin\SsmsMin.exe" = true
  /\ errorMessages
       (trace (handleLaunchSsmsServerPropertiesDialogCommand english
                 (Some context0)
                 (final (activate english join_backslash hostReady initialState))))
     = [].
Proof.
  split; [reflexivity |].
  exact (proj2 (proj2 (@command_after_activation english join_backslash hostReady
                         context0 profile0 tt "C:\ext\ssmsmin\SsmsMin.exe"
                         eq_refl eq_refl eq_refl eq_refl eq_refl))).
Defined.

Lemma handler_without_profile_witness :
  trace (handleLaunchSsmsServerPropertiesDialogCommand english None initialState)
  = []
  /\ trace (handleLaunchSsmsServerPropertiesDialogCommand english
              (Some {| connectionProfile := None |}) (Some "C:\SsmsMin.exe"))
     = [].
Proof.
  split.
  - exact (proj1 (@handler_without_profile english None initialState I)).
  - exact (proj1 (@handler_without_profile english
                    (Some {| connectionProfile := None |})
                    (Some "C:\SsmsMin.exe") eq_refl)).
Defined.

Lemma handler_launches_server_properties_witness :
  connectionProfile context0 = Some profile0
  /\ exists command callback,
       In (Exec command EmptyString callback)
          (trace (handleLaunchSsmsServerPropertiesDialogCommand english
                    (Some context0) (Some "C:\SsmsMin.exe")))
       /\ includes ("-u " ++ dquote ++ "Server[@Name='S']" ++ dquote) command
          = true.
Proof.
  split; [reflexivity |].
  destruct (@handler_launches_server_properties english
              context0 profile0 "C:\SsmsMin.exe" eq_refl eq_refl)
    as (command & callback & _ & E & _ & _ & U & _).
  exists command, callback. split; [exact E | exact U].
Defined.

Lemma stdin_untouched_iff_AzureMFA_witness :
  truthy "C:\SsmsMin.exe" = true
  /\ stdinWrites (trace (launchSsmsDialog english "other" profileAad None
                           (Some "C:\SsmsMin.exe"))) = [].
Proof.
  split; [reflexivity |].
  apply (@stdin_untouched_iff_AzureMFA english "other" profileAad None
           "C:\SsmsMin.exe" eq_refl).
  reflexivity.
Defined.

Lemma optional_flags_witness :
  includes "-D" (buildSsmsMinCommandArgs paramsFull) = true
  /\ includes "-u" (buildSsmsMinCommandArgs paramsFull) = true
  /\ includes "-D" (buildSsmsMinCommandArgs paramsAad) = false
  /\ includes "-u" (buildSsmsMinCommandArgs paramsAad) = false.
Proof.
  destruct (@optional_flags paramsFull eq_refl) as (_ & _ & D & U).
  destruct (@optional_flags paramsAad eq_refl) as (_ & _ & D' & U').
  repeat split; assumption.
Defined.

End LauncherMore.

(* ================================================================= *)
(** ** Further properties of the formatter picker *)

Module PickerMore.
Import Js Eff Picker Samples MoreSamples PickerProps.

Section WithProviders.
Context {D R : Type}.
Context `{FormattingEditProvider D} `{FormattingEditProvider R}.
Variable localize : string -> string -> string.
Variable toKey : ExtensionIdentifier -> string.

#[local] Abbreviation Effect := (@Effect D R).
#[local] Abbreviation Services := (@Services D R).

Lemma nth_error_map_from {A B} (f : A -> nat -> B) (xs : list A) (i k : nat) :
  nth_error (map_from f i xs) k =
  option_map (fun x => f x (i + k)) (nth_error xs k).
Proof.
  revert i k. induction xs as [| x xs IH]; intros i [| k]; cbn;
    try reflexivity.
  - now rewrite Nat.add_0_r.
  - rewrite IH. now replace (S i + k) with (i + S k) by lia.
Qed.

(** The case analysis of a run of either command. *)
Ltac run_cases c services editor QP F :=
  let model := fresh "model" in
  let picked := fresh "picked" in
  let range := fresh "range" in
  destruct c; unfold run;
  [ rewrite document_run;
    destruct (getModel editor) as [model |];
    [ cbv zeta;
      destruct (quickPickService_pick services (picksOf _ _))
        as [picked |] eqn:QP;
      [ destruct (formatDocumentWithProvider services _) as [[] | ?] eqn:F |]
    |]
  | rewrite selection_run;
    destruct (getModel editor) as [model |];
    [ destruct (completion (selectionRange _ _ _)) as [range | ?];
      [ cbv zeta;
        destruct (quickPickService_pick services (picksOf _ _))
          as [picked |] eqn:QP;
        [ destruct (formatDocumentRangeWithProvider services _ _)
            as [[] | ?] eqn:F |]
      |]
    |] ].

(** X12.  On an editor without a model either command returns at
    once: no picker, no formatting, no telemetry. *)
Theorem run_without_model (c : Command) (services : Services)
    (editor : ICodeEditor) :
  getModel editor = None ->
  run localize toKey c services editor tt = MkRun [] (Normal tt) tt.
Proof.
  intros M. destruct c; unfold run;
    [rewrite document_run | rewrite selection_run]; now rewrite M.
Qed.

(** X13.  When a formatting call made by a run fails, the run is
    rejected with that error and logs no telemetry event. *)
Theorem failed_format_rejects (c : Command) (services : Services)
    (editor : ICodeEditor) (e : string) :
  let r := run localize toKey c services editor tt in
  (exists p, In p (documentFormats (trace r))
             /\ formatDocumentWithProvider services p = Throw e)
  \/ (exists p range, In (p, range) (rangeFormats (trace r))
                      /\ formatDocumentRangeWithProvider services p range = Throw e) ->
  completion r = Throw e /\ publicLogs (trace r) = [].
Proof.
  cbv zeta. run_cases c services editor QP F;
    cbn [trace completion documentFormats rangeFormats publicLogs In];
    intros [(p & I & E) | (p & range' & I & E)];
    try contradiction;
    destruct I as [I | []];
    try (injection I as <- <-); try subst p;
    rewrite F in E; try discriminate E; injection E as <-; split; reflexivity.
Qed.

(** X14.  When the user selects an entry and the formatting call
    succeeds, the run logs one event: the mode of the command, the
    keys of all providers offered, in order, and the key of the
    provider found at the index of the entry. *)
Theorem successful_pick_logged (c : Command) (services : Services)
    (editor : ICodeEditor) (picks : list IIndexedPick) (item : IIndexedPick) :
  let r := run localize toKey c services editor tt in
  In picks (quickPicks (trace r)) ->
  quickPickService_pick services picks = Some item ->
  completion r = Normal tt ->
  exists model,
    getModel editor = Some model
    /\ match c with
       | FormatDocumentMultiple =>
           let provider :=
             getRealAndSyntheticDocumentFormattersOrdered services model in
           publicLogs (trace r) =
             [("formatterpick",
               {| mode := "document";
                  extensions := map (extKey toKey) provider;
                  pick := match nth_error provider (index item) with
                          | Some p => extKey toKey p
                          | None => "none"
                          end |})]
       | FormatSelectionMultiple =>
           let provider :=
             DocumentRangeFormattingEditProviderRegistry_ordered services model in
           publicLogs (trace r) =
             [("formatterpick",
               {| mode := "range";
                  extensions := map (extKey toKey) provider;
                  pick := match nth_error provider (index item) with
                          | Some p => extKey toKey p
                          | None => "none"
                          end |})]
       end.
Proof.
  cbv zeta. run_cases c services editor QP F;
    cbn [trace completion quickPicks In];
    intros I Q N; try contradiction; try discriminate N;
    destruct I as [<- | []];
    rewrite QP in Q; try discriminate Q; injection Q as ->;
    eexists; (split; [reflexivity |]); reflexivity.
Qed.

(** X15.  The entries are offered in the order of the providers, and
    the entry at position [k] carries the index [k] and the display
    name of the provider at position [k] (the empty text when it has
    none); no entry stands beyond the last provider. *)
Theorem picksOf_nth {T} `{FormattingEditProvider T} (provider : list T) (k : nat) :
  nth_error (picksOf localize provider) k =
  option_map (entryOf localize k) (nth_error provider k).
Proof.
  unfold picksOf, map_indexed. rewrite nth_error_map_from.
  destruct (nth_error provider k) as [p |]; [| reflexivity].
  cbn. unfold entryOf. now rewrite or_string_empty.
Qed.

(** X16.  The button of an offered entry opens the extension query of
    the provider the entry was built from; when that provider has no
    extension identifier the handler throws instead. *)
Theorem button_of_offered_entry {T} `{FormattingEditProvider T}
    (provider : list T) (item : IIndexedPick) :
  In item (picksOf localize provider) ->
  exists p,
    nth_error provider (index item) = Some p
    /\ item = entryOf localize (index item) p
    /\ onDidTriggerItemButton (D := D) (R := R) provider item =
       match extensionId p with
       | Some id => Normal [ShowExtensionQuery ("@id:" ++ value id)]
       | None => Throw "TypeError: Cannot read property 'value' of undefined"
       end.
Proof.
  intros I. destruct (in_picksOf localize provider item I) as (p & E & P).
  exists p. split; [exact E |]. split; [exact P |].
  unfold onDidTriggerItemButton. now rewrite E.
Qed.



End WithProviders.

Lemma run_without_model_witness :
  getModel editorWithoutModel = None
  /\ run english sampleKey FormatSelectionMultiple (sampleServices (Some 0))
       editorWithoutModel tt
     = MkRun [] (Normal tt) tt.
Proof.
  split; [reflexivity |].
  exact (@run_without_model _ _ _ _ english sampleKey FormatSelectionMultiple
           (sampleServices (Some 0)) editorWithoutModel eq_refl).
Defined.

Lemma failed_format_rejects_witness :
  let r := run english sampleKey FormatDocumentMultiple (failingServices (Some 0))
             sampleEditor tt in
  In (Some prettier) (documentFormats (trace r))
  /\ completion r = Throw "formatter crashed"
  /\ publicLogs (trace r) = [].
Proof.
  cbv zeta.
  assert (In (Some prettier)
            (documentFormats
               (trace (run english sampleKey FormatDocumentMultiple
                         (failingServices (Some 0)) sampleEditor tt)))) as I
    by (left; reflexivity).
  split; [exact I |].
  apply (@failed_format_rejects _ _ _ _ english sampleKey FormatDocumentMultiple
           (failingServices (Some 0)) sampleEditor "formatter crashed").
  left. exists (Some prettier). split; [exact I | reflexivity].
Defined.

Lemma successful_pick_logged_witness :
  let r := run english sampleKey FormatSelectionMultiple (sampleServices (Some 1))
             sampleEditor tt in
  In samplePicks (quickPicks (trace r))
  /\ completion r = Normal tt
  /\ publicLogs (trace r) =
       [("formatterpick",
         {| mode := "range";
            extensions := ["unknown"; "esbenp.prettier-vscode"];
            pick := "esbenp.prettier-vscode" |})].
Proof.
  cbv zeta.
  assert (In samplePicks
            (quickPicks
               (trace (run english sampleKey FormatSelectionMultiple
                         (sampleServices (Some 1)) sampleEditor tt)))) as I
    by (left; reflexivity).
  assert (quickPickService_pick (sampleServices (Some 1)) samplePicks
          = Some (entryOf english 1 prettier)) as Q by reflexivity.
  assert (completion (run english sampleKey FormatSelectionMultiple
                        (sampleServices (Some 1)) sampleEditor tt)
          = Normal tt) as N by reflexivity.
  split; [exact I |]. split; [exact N |].
  destruct (@successful_pick_logged _ _ _ _ english sampleKey
              FormatSelectionMultiple (sampleServices (Some 1)) sampleEditor
              samplePicks (entryOf english 1 prettier) I Q N)
    as (model & M & L).
  injection M as <-. exact L.
Defined.

Lemma button_of_offered_entry_witness :
  In (entryOf english 1 prettier) samplePicks
  /\ onDidTriggerItemButton (D := SampleProvider) (R := SampleProvider)
       [builtin; prettier] (entryOf english 1 prettier)
     = Normal [ShowExtensionQuery "@id:esbenp.prettier-vscode"]
  /\ onDidTriggerItemButton (D := SampleProvider) (R := SampleProvider)
       [builtin; prettier] (entryOf english 0 builtin)
     = Throw "TypeError: Cannot read property 'value' of undefined".
Proof.
  assert (In (entryOf english 1 prettier) samplePicks) as I1
    by (right; left; reflexivity).
  assert (In (entryOf english 0 builtin) samplePicks) as I0
    by (left; reflexivity).
  split; [exact I1 |]. split.
  - destruct (@button_of_offered_entry SampleProvider SampleProvider english
                SampleProvider _ [builtin; prettier] _ I1) as (p & E & _ & B).
    injection E as <-. exact B.
  - destruct (@button_of_offered_entry SampleProvider SampleProvider english
                SampleProvider _ [builtin; prettier] _ I0) as (p & E & _ & B).
    injection E as <-. exact B.
Defined.

End PickerMore.
